(** * iris_ncobj: netCDF4.Dataset mimics wrapping an ncobj.Group

    A shallow embedding of [lib/iris_ncobj.py].  The Python classes become
    modules of functions over an explicit object store: every mimic is an
    object in a heap, addressed by its identity, carrying a class tag and
    an instance dictionary.  Attribute reads follow Python's lookup order
    (properties of the class, the instance dictionary, methods of the
    class, and last the [__getattr__] hook), calls bind their positional
    and keyword arguments the way Python does, and exceptions are explicit
    results. *)

From stdpp Require Import gmap strings list.

Local Set Warnings "-register-all".


(** ** The wrapped object graph *)

(** Modelled from the spec: the array type behind [Variable.data] belongs to
    the storage library, not to this module.  The consumed interface lists
    [dtype], [shape], [ndim], [size] and slicing; the four read-only fields
    are kept independent, the elements are an opaque payload. *)
Module Array.
Record t : Type := mk {
  dtype : string;
  shape : list Z;
  ndim : Z;
  size : Z;
  payload : list Z
}.
End Array.

(** Plain Python values that need no identity. *)
Inductive atom : Type :=
  | ANone
  | ABool (b : bool)
  | AInt (z : Z)
  | AStr (s : string)
  | AArray (a : Array.t).

(** Modelled from the spec: the classes of the [ncobj] object model
    ([Attribute], [Dimension], [Variable], [Group]) are imported, not defined
    here.  Their fields are the ones the consumed interface names. *)
Module Attribute.
Record t : Type := mk { name : string; value : atom }.
End Attribute.

Module Dimension.
Record t : Type := mk { name : string; length : Z; unlimited : bool }.
End Dimension.

(** A variable refers to its dimensions by object or by bare name; this is
    the reason for [_name_as_string]. *)
Inductive dimref : Type :=
  | DimObj (d : Dimension.t)
  | DimName (s : string).

Module NcVariable.
Record t : Type := mk {
  name : string;
  dimensions : list dimref;
  data : Array.t;
  attributes : list Attribute.t
}.
End NcVariable.

Module Group.
Inductive t : Type := mk {
  name : string;
  dimensions : list Dimension.t;
  variables : list NcVariable.t;
  groups : list t;
  attributes : list Attribute.t
}.
End Group.

(** Elements of an ncobj container carry their own name. *)
Class Named (A : Type) : Type := name_of : A -> string.
#[export] Instance Attribute_named : Named Attribute.t := Attribute.name.
#[export] Instance Dimension_named : Named Dimension.t := Dimension.name.
#[export] Instance NcVariable_named : Named NcVariable.t := NcVariable.name.
#[export] Instance Group_named : Named Group.t := Group.name.

(** Modelled from the spec: an ncobj container is an iterable of named
    elements with [names()] and lookup by name.  It is a list in iteration
    order; lookup returns the first element of that name. *)
Module Container.
Definition names {A} `{Named A} (c : list A) : list string :=
  map name_of c.

Definition getitem {A} `{Named A} (c : list A) (key : string) : option A :=
  find (fun a => bool_decide (name_of a = key)) c.
End Container.

(** ** Python values, exceptions and the object store *)

Abbreviation objid := nat (only parsing).
Abbreviation handle := nat (only parsing).

Inductive pyval : Type :=
  | PAtom (a : atom)
  | PDim (d : Dimension.t)
  | PVar (v : NcVariable.t)
  | PGrp (g : Group.t)
  | PRef (o : objid)
  | PTuple (items : list pyval)
  | PList (items : list pyval)
  | POrderedDict (items : list (string * pyval))
  | PBoundMethod (o : objid) (method : string)
  | PDataset (h : handle).

Abbreviation PNone := (PAtom ANone).
Abbreviation PStr s := (PAtom (AStr s)).
Abbreviation PInt z := (PAtom (AInt z)).
Abbreviation PBool b := (PAtom (ABool b)).

Inductive exn : Type :=
  | AttributeError
  | TypeError
  | NameError (name : string)
  | KeyError (key : string)
  | RecursionError
  | SystemError
  | ExternalError (code : nat).

Inductive result (A : Type) : Type :=
  | Ok (a : A)
  | Raise (e : exn).
Arguments Ok {A} a.
Arguments Raise {A} e.

Inductive cls : Type :=
  | CDimensionMimic
  | CVariableMimic
  | CGroupMimic
  | CNc4DatasetMimic.

Record pyobj : Type := mkobj {
  ob_type : cls;
  ob_dict : gmap string pyval
}.

(** What the file layer sees: a dataset opened, the encoder run on it, the
    dataset closed. *)
Inductive event : Type :=
  | EvOpen (filename mode kwargs : pyval) (h : handle)
  | EvWrite (h : handle) (root : pyval)
  | EvClose (h : handle).

(** The state a call runs in: the objects, the module's global names and
    the file-layer events so far. *)
Record world : Type := mkworld {
  heap : list pyobj;
  globals : gmap string pyval;
  trace : list event
}.

(** The collaborators outside this module.  [None] from the two file-layer
    functions means the call returned normally. *)
Class Externals : Type := {
  array_getitem : Array.t -> pyval -> result pyval;
  nc_Dataset : pyval -> pyval -> pyval -> list event -> option exn;
  ncobj_write : handle -> pyval -> list event -> option exn;
  ncobj_eq : pyval -> pyval -> result bool
}.

(** ** Computations: state and exceptions *)

Definition M (A : Type) : Type := world -> result A * world.

Definition ret {A} (a : A) : M A := fun w => (Ok a, w).
Definition raise {A} (e : exn) : M A := fun w => (Raise e, w).
Definition lift {A} (r : result A) : M A := fun w => (r, w).
Definition bind {A B} (m : M A) (k : A -> M B) : M B :=
  fun w =>
    match m w with
    | (Ok a, w') => k a w'
    | (Raise e, w') => (Raise e, w')
    end.

Declare Scope py_scope.
Delimit Scope py_scope with py.
Notation "'let*' x ':=' c 'in' k" := (bind c (fun x => k))
  (at level 10, x name, c at level 100, k at level 200) : py_scope.
Notation "c ';;;' k" := (bind c (fun _ => k))
  (at level 100, k at level 200, right associativity) : py_scope.
Local Open Scope py_scope.

Definition set_heap (h : list pyobj) (w : world) : world :=
  mkworld h (globals w) (trace w).

Definition log (e : event) : M unit :=
  fun w => (Ok tt, mkworld (heap w) (globals w) (trace w ++ [e])).

(** [object.__new__]: a fresh object with an empty instance dictionary. *)
Definition alloc (c : cls) : M objid :=
  fun w => (Ok (length (heap w)), set_heap (heap w ++ [mkobj c ∅]) w).

(** [self.name = v] on an instance. *)
Definition setattr (o : objid) (name : string) (v : pyval) : M unit :=
  fun w =>
    (Ok tt,
     set_heap
       (alter (fun ob => mkobj (ob_type ob) (<[name := v]> (ob_dict ob)))
              o (heap w))
       w).

(** The entry of an instance dictionary, if the object has one. *)
Definition dict_get (w : world) (o : objid) (name : string) : option pyval :=
  match heap w !! o with
  | Some ob => ob_dict ob !! name
  | None => None
  end.

Definition type_of (w : world) (o : objid) : option cls :=
  ob_type <$> heap w !! o.

(** A global name of the module, as a function body reads it once its
    locals do not bind it.  No builtin is called [kwargs]. *)
Definition load_global (name : string) : M pyval :=
  fun w =>
    match globals w !! name with
    | Some v => (Ok v, w)
    | None => (Raise (NameError name), w)
    end.

(** ** Calls and containers of the Python runtime *)

(** Keyword arguments of a call, in the order written. *)
Definition kwargs_t : Type := list (string * pyval).

Definition kw_get (kw : kwargs_t) (name : string) : option pyval :=
  snd <$> find (fun p => bool_decide (p.1 = name)) kw.

Definition kw_remove (name : string) (kw : kwargs_t) : kwargs_t :=
  filter (fun p => p.1 ≠ name) kw.

(** One parameter of a signature, filled from the call: by position, by
    keyword, or from its default.  Twice filled, or not filled and without
    default, is a [TypeError]. *)
Definition bind_param (pos : list pyval) (kw : kwargs_t)
    (i : nat) (name : string) (default : option pyval) : result pyval :=
  match pos !! i, kw_get kw name with
  | Some _, Some _ => Raise TypeError
  | Some v, None => Ok v
  | None, Some v => Ok v
  | None, None =>
      match default with
      | Some v => Ok v
      | None => Raise TypeError
      end
  end.

(** A signature without [*args] and [**kwargs] accepts no further
    positional value and no other keyword. *)
Definition no_extra_args (pos : list pyval) (kw : kwargs_t)
    (params : list string) : result unit :=
  if (length pos <=? length params)%nat
     && forallb (fun p => bool_decide (p.1 ∈ params)) kw
  then Ok tt
  else Raise TypeError.

(** A list comprehension whose element expression runs in the store. *)
Definition comprehension {A B} (f : A -> M B) : list A -> M (list B) :=
  fix go (l : list A) : M (list B) :=
    match l with
    | [] => ret []
    | a :: l' =>
        let* b := f a in
        let* bs := go l' in
        ret (b :: bs)
    end.

(** [collections.OrderedDict]: assignment to a key already present replaces
    the value and keeps the position; a new key goes to the end. *)
Module OrderedDict.
Definition t : Type := list (string * pyval).

Fixpoint setitem (d : t) (k : string) (v : pyval) : t :=
  match d with
  | [] => [(k, v)]
  | (k', v') :: d' =>
      if bool_decide (k' = k) then (k, v) :: d'
      else (k', v') :: setitem d' k v
  end.

(** [OrderedDict(items)] assigns the pairs one after the other. *)
Definition of_items (items : list (string * pyval)) : t :=
  fold_left (fun d kv => setitem d kv.1 kv.2) items [].

Definition keys (d : t) : list string := map fst d.
Definition values (d : t) : list pyval := map snd d.

Definition getitem (d : t) (k : string) : option pyval :=
  snd <$> find (fun p => bool_decide (p.1 = k)) d.
End OrderedDict.

(** Substring test of [needle in s] on strings. *)
Definition str_contains (needle s : string) : bool :=
  match String.index 0 needle s with
  | Some _ => true
  | None => false
  end.

(** [needle in container] for a string needle.  Strings test for a
    substring, sequences for an equal item, mappings for a key; a value that
    is no container raises. *)
Definition py_contains (needle : string) (container : pyval) : result bool :=
  match container with
  | PAtom (AStr s) => Ok (str_contains needle s)
  | PTuple items | PList items =>
      Ok (existsb (fun v => match v with
                            | PAtom (AStr s) => bool_decide (s = needle)
                            | _ => false
                            end) items)
  | POrderedDict d => Ok (bool_decide (needle ∈ OrderedDict.keys d))
  | _ => Raise TypeError
  end.

(** ** Reading the fields of a wrapped component

    A field read on a value that is not a component having that field is an
    [AttributeError].  (Approximation: a mimic wrapped inside another mimic
    is treated as having no component fields.) *)

Definition ncobj_name (c : pyval) : result pyval :=
  match c with
  | PDim d => Ok (PStr (Dimension.name d))
  | PVar v => Ok (PStr (NcVariable.name v))
  | PGrp g => Ok (PStr (Group.name g))
  | _ => Raise AttributeError
  end.

Definition ncobj_length (c : pyval) : result Z :=
  match c with
  | PDim d => Ok (Dimension.length d)
  | _ => Raise AttributeError
  end.

Definition ncobj_unlimited (c : pyval) : result bool :=
  match c with
  | PDim d => Ok (Dimension.unlimited d)
  | _ => Raise AttributeError
  end.

Definition ncobj_attributes (c : pyval) : result (list Attribute.t) :=
  match c with
  | PVar v => Ok (NcVariable.attributes v)
  | PGrp g => Ok (Group.attributes g)
  | _ => Raise AttributeError
  end.

Definition ncobj_data (c : pyval) : result Array.t :=
  match c with
  | PVar v => Ok (NcVariable.data v)
  | _ => Raise AttributeError
  end.

(** [_name_as_string]: the name of an object that has one, the string
    itself otherwise. *)
Definition _name_as_string {A} `{Named A} (obj_or_string : A + string) : string :=
  match obj_or_string with
  | inl obj => name_of obj
  | inr s => s
  end.

Definition dimref_as_named (r : dimref) : Dimension.t + string :=
  match r with
  | DimObj d => inl d
  | DimName s => inr s
  end.

(** [map(_name_as_string, c.dimensions)] for a variable (references) or a
    group (dimension objects). *)
Definition ncobj_dimension_names (c : pyval) : result (list string) :=
  match c with
  | PVar v => Ok (map (fun r => _name_as_string (dimref_as_named r))
                      (NcVariable.dimensions v))
  | PGrp g => Ok (map (fun d => _name_as_string (inl d)) (Group.dimensions g))
  | _ => Raise AttributeError
  end.

(** ** The classes *)

(** [c] is a subclass of [d] and not [d] itself.  Of the four classes that
    have instances only [Nc4DatasetMimic] extends another one. *)
Definition proper_subclass (c d : cls) : bool :=
  match c, d with
  | CNc4DatasetMimic, CGroupMimic => true
  | _, _ => false
  end.

(** [DimensionMimic] is the one class without the [__getattr__] hook. *)
Definition has_getattr_hook (c : cls) : bool :=
  match c with
  | CDimensionMimic => false
  | CVariableMimic | CGroupMimic | CNc4DatasetMimic => true
  end.

(** The read [self.ncobj].  No class defines the name, so it is found in
    the instance dictionary.  When it is not there, a class with the hook
    asks [getncattr], which reads [self.ncobj] again and never returns; the
    interpreter ends that with a [RecursionError]. *)
Definition self_ncobj (self : objid) : M pyval :=
  fun w =>
    match heap w !! self with
    | None => (Raise SystemError, w)
    | Some ob =>
        match ob_dict ob !! "ncobj" with
        | Some v => (Ok v, w)
        | None =>
            (Raise (if has_getattr_hook (ob_type ob)
                    then RecursionError else AttributeError), w)
        end
    end.

(** The attribute hook comes first in this file, since any attribute read
    of a subclass instance may end in it. *)
Module Nc4ComponentAttrsMimic.
Definition ncattrs (self : objid) : M pyval :=
  let* nco := self_ncobj self in
  let* attrs := lift (ncobj_attributes nco) in
  ret (PList (map (fun a : Attribute.t => PStr (_name_as_string (inl a)))
                  attrs)).

Definition getncattr (self : objid) (attr_name : string) : M pyval :=
  let* nco := self_ncobj self in
  let* attrs := lift (ncobj_attributes nco) in
  if bool_decide (attr_name ∈ Container.names attrs) then
    match Container.getitem attrs attr_name with
    | Some a => ret (PAtom (Attribute.value a))
    | None => raise (KeyError attr_name)
    end
  else raise AttributeError.

Definition __getattr__ (self : objid) (attr_name : string) : M pyval :=
  getncattr self attr_name.
End Nc4ComponentAttrsMimic.

(** What an attribute read does once the normal lookup has failed. *)
Definition getattr_hook (c : cls) (self : objid) (name : string) : M pyval :=
  if has_getattr_hook c then Nc4ComponentAttrsMimic.__getattr__ self name
  else raise AttributeError.

(** The read [self.name] for a name that no class defines: the instance
    dictionary, then the hook. *)
Definition instance_attr (self : objid) (name : string) : M pyval :=
  fun w =>
    match heap w !! self with
    | None => (Raise SystemError, w)
    | Some ob =>
        match ob_dict ob !! name with
        | Some v => (Ok v, w)
        | None => getattr_hook (ob_type ob) self name w
        end
    end.

(** The read of a property: an [AttributeError] that escapes the getter
    sends the read to the hook as well. *)
Definition with_hook (self : objid) (name : string) (getter : M pyval)
    : M pyval :=
  fun w =>
    match getter w with
    | (Raise AttributeError, w') =>
        match type_of w' self with
        | Some c => getattr_hook c self name w'
        | None => (Raise SystemError, w')
        end
    | r => r
    end.

Module Nc4ComponentMimic.
(** [__init__(self, nco_component, parent_grp=None)] *)
Definition __init__ (self : objid) (pos : list pyval) (kw : kwargs_t)
    : M unit :=
  lift (no_extra_args pos kw ["nco_component"; "parent_grp"]) ;;;
  let* nco_component := lift (bind_param pos kw 0 "nco_component" None) in
  let* parent_grp := lift (bind_param pos kw 1 "parent_grp" (Some PNone)) in
  setattr self "ncobj" nco_component ;;;
  setattr self "_parent_group_ncobj" parent_grp.

(** A call of a class that inherits this initialiser. *)
Definition new (c : cls) (pos : list pyval) (kw : kwargs_t) : M objid :=
  let* self := alloc c in
  __init__ self pos kw ;;;
  ret self.

Definition name (self : objid) : M pyval :=
  let* nco := self_ncobj self in
  lift (ncobj_name nco).

Definition group (self : objid) : M pyval :=
  instance_attr self "_parent_group_ncobj".

Definition __eq__ `{Externals} (self other : objid) : M bool :=
  let* a := self_ncobj self in
  let* b := self_ncobj other in
  lift (ncobj_eq a b).

(** The operator [a == b].  The interpreter asks the right operand
    first when its class is a proper subclass of the left operand's
    class; both classes have the same [__eq__], which never answers
    [NotImplemented]. *)
Definition op_eq `{Externals} (a b : objid) : M bool :=
  fun w =>
    match type_of w a, type_of w b with
    | Some ca, Some cb =>
        if proper_subclass cb ca then __eq__ b a w else __eq__ a b w
    | _, _ => (Raise SystemError, w)
    end.

(** [not self == other] *)
Definition __ne__ `{Externals} (self other : objid) : M bool :=
  let* r := op_eq self other in
  ret (negb r).

(** The operator [a != b], with the same rule for the operand asked
    first. *)
Definition op_ne `{Externals} (a b : objid) : M bool :=
  fun w =>
    match type_of w a, type_of w b with
    | Some ca, Some cb =>
        if proper_subclass cb ca then __ne__ b a w else __ne__ a b w
    | _, _ => (Raise SystemError, w)
    end.
End Nc4ComponentMimic.

Module DimensionMimic.
Definition new (pos : list pyval) (kw : kwargs_t) : M objid :=
  Nc4ComponentMimic.new CDimensionMimic pos kw.

Definition isunlimited (self : objid) : M bool :=
  let* nco := self_ncobj self in
  let* unlimited := lift (ncobj_unlimited nco) in
  if unlimited then ret true
  else
    let* nco := self_ncobj self in
    let* length := lift (ncobj_length nco) in
    ret (bool_decide (length = 0%Z)).

Definition size (self : objid) : M pyval :=
  let* unlimited := isunlimited self in
  if unlimited then ret (PInt 0)
  else
    let* nco := self_ncobj self in
    let* length := lift (ncobj_length nco) in
    ret (PInt length).

Definition __len__ (self : objid) : M pyval := size self.
End DimensionMimic.

(** [x == 0] for the values an [ndim] read can give. *)
Definition py_eq_zero (v : pyval) : bool :=
  match v with
  | PAtom (AInt z) => bool_decide (z = 0%Z)
  | PAtom (ABool b) => negb b
  | _ => false
  end.

Module VariableMimic.
Definition new (pos : list pyval) (kw : kwargs_t) : M objid :=
  Nc4ComponentMimic.new CVariableMimic pos kw.

Definition dtype (self : objid) : M pyval :=
  let* nco := self_ncobj self in
  let* data := lift (ncobj_data nco) in
  ret (PStr (Array.dtype data)).

Definition datatype (self : objid) : M pyval :=
  with_hook self "dtype" (dtype self).

Definition dimensions (self : objid) : M pyval :=
  let* nco := self_ncobj self in
  let* names := lift (ncobj_dimension_names nco) in
  ret (PTuple (map (fun s => PStr s) names)).

Definition shape (self : objid) : M pyval :=
  let* nco := self_ncobj self in
  let* data := lift (ncobj_data nco) in
  ret (PTuple (map (fun z => PInt z) (Array.shape data))).

Definition ndim (self : objid) : M pyval :=
  let* nco := self_ncobj self in
  let* data := lift (ncobj_data nco) in
  ret (PInt (Array.ndim data)).

Definition size (self : objid) : M pyval :=
  let* nco := self_ncobj self in
  let* data := lift (ncobj_data nco) in
  ret (PInt (Array.size data)).

Definition __getitem__ `{Externals} (self : objid) (keys : pyval)
    : M pyval :=
  let* n := with_hook self "ndim" (ndim self) in
  if py_eq_zero n then
    let* nco := self_ncobj self in
    let* data := lift (ncobj_data nco) in
    ret (PAtom (AArray data))
  else
    let* nco := self_ncobj self in
    let* data := lift (ncobj_data nco) in
    lift (array_getitem data keys).
End VariableMimic.

(** *** Attribute reads in general *)

Definition property_table (c : cls) : list (string * (objid -> M pyval)) :=
  ("name", Nc4ComponentMimic.name) ::
  match c with
  | CDimensionMimic => [("size", DimensionMimic.size)]
  | CVariableMimic =>
      [("dtype", VariableMimic.dtype);
       ("datatype", VariableMimic.datatype);
       ("dimensions", VariableMimic.dimensions);
       ("shape", VariableMimic.shape);
       ("ndim", VariableMimic.ndim);
       ("size", VariableMimic.size)]
  | CGroupMimic | CNc4DatasetMimic => []
  end.

(** What every instance of these classes has without the module defining
    it: the attributes of [object] in Python 3 (those of Python 2.7's
    [object] are among them) and the three names every class statement
    adds, [__dict__], [__module__] and [__weakref__].  A read of one of
    these names is found before the hook is asked. *)
Definition object_namespace : list string :=
  ["__class__"; "__delattr__"; "__dict__"; "__dir__"; "__doc__"; "__eq__";
   "__format__"; "__ge__"; "__getattribute__"; "__getstate__"; "__gt__";
   "__hash__"; "__init__"; "__init_subclass__"; "__le__"; "__lt__";
   "__module__"; "__ne__"; "__new__"; "__reduce__"; "__reduce_ex__";
   "__repr__"; "__setattr__"; "__sizeof__"; "__str__"; "__subclasshook__";
   "__weakref__"].

(** The methods a class defines or inherits. *)
Definition method_table (c : cls) : list string :=
  ["__init__"; "group"; "__eq__"; "__ne__"] ++
  match c with
  | CDimensionMimic => ["__len__"; "isunlimited"]
  | CVariableMimic => ["ncattrs"; "getncattr"; "__getattr__"; "__getitem__"]
  | CGroupMimic => ["ncattrs"; "getncattr"; "__getattr__"]
  | CNc4DatasetMimic => ["ncattrs"; "getncattr"; "__getattr__"; "close"]
  end.

Definition properties (c : cls) : list string := map fst (property_table c).

Definition class_namespace (c : cls) : list string :=
  properties c ++ method_table c ++ object_namespace.

Definition find_property (c : cls) (name : string)
    : option (objid -> M pyval) :=
  snd <$> find (fun p => bool_decide (p.1 = name)) (property_table c).

(** The read [self.name] for any name: a property of the class, the
    instance dictionary, a method of the class, the hook. *)
Definition py_getattr (self : objid) (name : string) : M pyval :=
  fun w =>
    match heap w !! self with
    | None => (Raise SystemError, w)
    | Some ob =>
        match find_property (ob_type ob) name with
        | Some getter => with_hook self name (getter self) w
        | None =>
            match ob_dict ob !! name with
            | Some v => (Ok v, w)
            | None =>
                if bool_decide (name ∈ method_table (ob_type ob)
                                         ++ object_namespace)
                then (Ok (PBoundMethod self name), w)
                else getattr_hook (ob_type ob) self name w
            end
        end
    end.

Module GroupMimic.
(** [__init__(self, *args, **kwargs)] for the call
    [GroupMimic(g, parent_grp=parent_grp)] on a group [g]: both arguments
    go on to the base initialiser, which stores [g] as [self.ncobj]; the
    three comprehensions then run over the collections of [g].  A subgroup
    is wrapped by a call of this same class: a fresh object, then its
    initialiser. *)
Fixpoint __init__ (self : objid) (g : Group.t) (parent_grp : pyval)
    {struct g} : M unit :=
  Nc4ComponentMimic.__init__ self [PGrp g] [("parent_grp", parent_grp)] ;;;
  let* dims :=
    comprehension
      (fun dim =>
         let* m := DimensionMimic.new [PDim dim] [("parent_grp", PRef self)] in
         ret (Dimension.name dim, PRef m))
      (Group.dimensions g) in
  setattr self "dimensions" (POrderedDict (OrderedDict.of_items dims)) ;;;
  let* vars :=
    comprehension
      (fun var =>
         let* m := VariableMimic.new [PVar var] [("parent_grp", PRef self)] in
         ret (NcVariable.name var, PRef m))
      (Group.variables g) in
  setattr self "variables" (POrderedDict (OrderedDict.of_items vars)) ;;;
  let* grps :=
    comprehension
      (fun grp =>
         let* m := (let* m := alloc CGroupMimic in
                    __init__ m grp (PRef self) ;;;
                    ret m) in
         ret (Group.name grp, PRef m))
      (Group.groups g) in
  setattr self "groups" (POrderedDict (OrderedDict.of_items grps)).

Definition new (g : Group.t) (parent_grp : pyval) : M objid :=
  let* self := alloc CGroupMimic in
  __init__ self g parent_grp ;;;
  ret self.
End GroupMimic.

(** The file layer.  [nc.Dataset(...)] either raises or yields a dataset
    with a handle not used before; [ncobj_write] is recorded when it is
    entered, whatever it then does. *)
Definition open_dataset `{Externals} (filename mode kwargs : pyval)
    : M handle :=
  fun w =>
    match nc_Dataset filename mode kwargs (trace w) with
    | Some e => (Raise e, w)
    | None =>
        let h := length (trace w) in
        (Ok h, snd (log (EvOpen filename mode kwargs h) w))
    end.

Definition call_ncobj_write `{Externals} (ds : handle) (root : pyval)
    : M unit :=
  fun w =>
    let w' := snd (log (EvWrite ds root) w) in
    match ncobj_write ds root (trace w) with
    | Some e => (Raise e, w')
    | None => (Ok tt, w')
    end.

(** [with ctx as ds: body].  When the context expression raises there is
    nothing to leave.  Otherwise [__enter__] gives the dataset itself and
    [__exit__] closes it after the body, however the body ended, and lets an
    exception of the body pass. *)
Definition with_dataset {A} (ctx : M handle) (body : handle -> M A) : M A :=
  fun w =>
    match ctx w with
    | (Raise e, w') => (Raise e, w')
    | (Ok ds, w1) =>
        let (r, w2) := body ds w1 in
        (r, snd (log (EvClose ds) w2))
    end.

Module Nc4DatasetMimic.
(** [__init__(self, file_path=None, file_mode='r', *args, **kwargs)].
    [super(GroupMimic, self).__init__] is the initialiser found after
    [GroupMimic] in the class order, the one of [Nc4ComponentMimic]. *)
Definition __init__ (self : objid) (pos : list pyval) (kw : kwargs_t)
    : M unit :=
  let* file_path := lift (bind_param pos kw 0 "file_path" (Some PNone)) in
  let* file_mode :=
    lift (bind_param pos kw 1 "file_mode" (Some (PStr "r"))) in
  let args := drop 2 pos in
  let kwargs := kw_remove "file_path" (kw_remove "file_mode" kw) in
  Nc4ComponentMimic.__init__ self args kwargs ;;;
  setattr self "_filepath" file_path ;;;
  setattr self "_file_mode" file_mode.

Definition new (pos : list pyval) (kw : kwargs_t) : M objid :=
  let* self := alloc CNc4DatasetMimic in
  __init__ self pos kw ;;;
  ret self.

(** The arguments of [nc.Dataset(filename=..., mode=..., **kwargs)] are
    evaluated from left to right before the call. *)
Definition close `{Externals} (self : objid) : M pyval :=
  let* file_mode := py_getattr self "_file_mode" in
  let* writing := lift (py_contains "w" file_mode) in
  if writing then
    with_dataset
      (let* filename := py_getattr self "file_path" in
       let* mode := py_getattr self "file_mode" in
       let* kwargs := load_global "kwargs" in
       open_dataset filename mode kwargs)
      (fun ds =>
         let* nco := py_getattr self "ncobj" in
         call_ncobj_write ds nco) ;;;
    ret PNone
  else ret PNone.
End Nc4DatasetMimic.

Definition fake_readable_nc4python_dataset (ncobj_group : pyval) : M objid :=
  Nc4DatasetMimic.new [ncobj_group] [].

(** [file_mode] has the default ['r']. *)
Definition fake_writeable_nc4python_dataset (file_path : pyval)
    (file_mode : option pyval) : M objid :=
  Nc4DatasetMimic.new []
    [("file_path", file_path); ("file_mode", default (PStr "r") file_mode)].

(** The names the module binds at top level once it is imported. *)
Definition module_names : list string :=
  ["OrderedDict"; "nc"; "ncobj_write"; "Nc4ComponentMimic";
   "_name_as_string"; "DimensionMimic"; "Nc4ComponentAttrsMimic";
   "VariableMimic"; "GroupMimic"; "Nc4DatasetMimic";
   "fake_readable_nc4python_dataset"; "fake_writeable_nc4python_dataset"].

(** A state right after the import: no mimic yet, no file touched.  The
    values of the global names play no part; each is bound to [None]. *)
Definition initial_world : world :=
  mkworld [] (list_to_map (map (fun n => (n, PNone)) module_names)) [].

(** ** Sample data *)

Module Sample.
Definition scalar : Array.t := Array.mk "f8" [] 0 1 [42%Z].
Definition vector : Array.t := Array.mk "i4" [3%Z] 1 3 [10%Z; 20%Z; 30%Z].

Definition dim_x : Dimension.t := Dimension.mk "x" 3 false.
Definition dim_time : Dimension.t := Dimension.mk "time" 7 true.
Definition dim_empty : Dimension.t := Dimension.mk "empty" 0 false.

Definition var_temp : NcVariable.t :=
  NcVariable.mk "temp" [DimObj dim_x] vector
    [Attribute.mk "units" (AStr "K")].
Definition var_height : NcVariable.t :=
  NcVariable.mk "height" [] scalar [Attribute.mk "units" (AStr "m")].

Definition grp_inner : Group.t :=
  Group.mk "inner" [dim_empty] [var_height] []
    [Attribute.mk "title" (AStr "nested")].

Definition grp_root : Group.t :=
  Group.mk "root" [dim_x; dim_time] [var_temp; var_height] [grp_inner]
    [Attribute.mk "history" (AStr "made in memory")].

(** A group whose attributes happen to be called like the properties
    [close] reads. *)
Definition grp_with_paths : Group.t :=
  Group.mk "root" [] [] []
    [Attribute.mk "file_path" (AStr "attr.nc");
     Attribute.mk "file_mode" (AStr "w")].

Definition name_string (c : pyval) : option string :=
  match c with
  | PDim d => Some (Dimension.name d)
  | PVar v => Some (NcVariable.name v)
  | PGrp g => Some (Group.name g)
  | _ => None
  end.

(** Collaborators that always succeed: integer indexing into the payload,
    a file layer that opens everything, an encoder that returns, and
    components compared by name. *)
#[export] Instance friendly : Externals := {|
  array_getitem a keys :=
    match keys with
    | PAtom (AInt i) =>
        match Array.payload a !! Z.to_nat i with
        | Some z => Ok (PInt z)
        | None => Raise (ExternalError 1)
        end
    | _ => Raise (ExternalError 2)
    end;
  nc_Dataset _ _ _ _ := None;
  ncobj_write _ _ _ := None;
  ncobj_eq a b := Ok (bool_decide (name_string a = name_string b))
|}.

(** The same, with an encoder that fails. *)
Definition failing_encoder : Externals := {|
  array_getitem := @array_getitem friendly;
  nc_Dataset _ _ _ _ := None;
  ncobj_write _ _ _ := Some (ExternalError 7);
  ncobj_eq := @ncobj_eq friendly
|}.

(** The root group wrapped by [GroupMimic(grp_root)]: object 0 is the
    group mimic, 1 and 2 its dimensions, 3 and 4 its variables, 5 the
    subgroup. *)
Definition world_group : world :=
  snd (GroupMimic.new grp_root PNone initial_world).

(** A dataset mimic built by the direct call
    [Nc4DatasetMimic('out.nc', mode, grp)]; it is object 0. *)
Definition world_dataset (mode : string) (g : Group.t) : world :=
  snd (Nc4DatasetMimic.new [PStr "out.nc"; PStr mode; PGrp g] []
         initial_world).

(** The same state after somebody has bound the global name [kwargs] to
    an empty mapping. *)
Definition world_patched (mode : string) (g : Group.t) : world :=
  let w := world_dataset mode g in
  mkworld (heap w) (<["kwargs" := POrderedDict []]> (globals w)) (trace w).

(** A group without attributes. *)
Definition grp_bare : Group.t := Group.mk "bare" [] [] [] [].

(** The names of the attributes of a component; none for a component
    without attributes. *)
Definition attribute_names (c : pyval) : list string :=
  match ncobj_attributes c with
  | Ok attrs => Container.names attrs
  | Raise _ => []
  end.

(** Collaborators whose comparison of components is one-sided: [a == b]
    holds when [b] has an attribute of every name [a] has one of. *)
Definition one_sided : Externals := {|
  array_getitem := @array_getitem friendly;
  nc_Dataset _ _ _ _ := None;
  ncobj_write _ _ _ := None;
  ncobj_eq a b :=
    Ok (forallb (fun n => bool_decide (n ∈ attribute_names b))
                (attribute_names a))
|}.

(** The state [world_group] after the direct call
    [Nc4DatasetMimic('out.nc', 'r', grp_bare)]: object 0 is the group mimic
    of [grp_root], object 8 the dataset mimic of [grp_bare]. *)
Definition world_group_and_dataset : world :=
  snd (Nc4DatasetMimic.new [PStr "out.nc"; PStr "r"; PGrp grp_bare] []
         world_group).

(** A node that has attributes and no data array, and the state after
    [VariableMimic(node)] has wrapped it as object 0. *)
Definition node_without_data : Group.t :=
  Group.mk "node" [] [] [] [Attribute.mk "shape" (AStr "flat")].

Definition world_variable_without_data : world :=
  snd (VariableMimic.new [PGrp node_without_data] [] initial_world).
End Sample.

(** [not r] for the outcome of a comparison. *)
Definition negate (r : result bool) : result bool :=
  match r with
  | Ok b => Ok (negb b)
  | Raise e => Raise e
  end.

(** The handles a run of file-layer events leaves open. *)
Definition track (opened : list handle) (e : event) : list handle :=
  match e with
  | EvOpen _ _ _ h => h :: opened
  | EvWrite _ _ => opened
  | EvClose h => filter (fun h' => h' ≠ h) opened
  end.

Definition still_open (evs : list event) : list handle :=
  fold_left track evs [].

(** A computation that reads the state and leaves it as it is. *)
Definition pure {A} (m : M A) : Prop := forall w, snd (m w) = w.

(** [w'] keeps every object of [w] as it is, may have more objects, and
    has the globals and events of [w]. *)
Definition frame (w w' : world) : Prop :=
  length (heap w) <= length (heap w')
  /\ (forall o, o < length (heap w) -> heap w' !! o = heap w !! o)
  /\ globals w' = globals w
  /\ trace w' = trace w.

(** The same, with object [self] left out of the promise. *)
Definition frame_except (self : objid) (w w' : world) : Prop :=
  length (heap w) <= length (heap w')
  /\ (forall o, o < length (heap w) -> o ≠ self ->
       heap w' !! o = heap w !! o)
  /\ globals w' = globals w
  /\ trace w' = trace w.

(** Object [c] is a mimic of [nco] whose parent group is [parent]. *)
Definition child_of (w : world) (parent nco : pyval) (c : objid) : Prop :=
  dict_get w c "_parent_group_ncobj" = Some parent
  /\ dict_get w c "ncobj" = Some nco.

(** A constructor call that returns a fresh object wrapping its argument
    under [parent] and touches no object that was there before. *)
Definition builds_child {A} (parent : pyval) (wrap : A -> pyval)
    (ctor : A -> M objid) (a : A) : Prop :=
  forall w, exists w',
    ctor a w = (Ok (length (heap w)), w')
    /\ frame w w'
    /\ length (heap w) < length (heap w')
    /\ child_of w' parent (wrap a) (length (heap w)).

(** The pairs of a mapping built over the container [l]: in the order of
    [l], each keyed by the name of its element and holding a mimic of that
    element under [parent]. *)
Definition children_of {A} `{Named A} (w : world) (parent : pyval)
    (wrap : A -> pyval) (l : list A) (items : list (string * pyval))
    : Prop :=
  Forall2 (fun a kv =>
             kv.1 = name_of a
             /\ exists c, kv.2 = PRef c /\ child_of w parent (wrap a) c)
          l items.

(** What the call [GroupMimic(g, parent_grp=parent)] has set up in object
    [self]: the fields of the base initialiser and the three ordered
    mappings, each built from one pair per element of the wrapped
    collection. *)
Definition group_built (w : world) (self : objid) (g : Group.t)
    (parent : pyval) : Prop :=
  type_of w self = Some CGroupMimic
  /\ child_of w parent (PGrp g) self
  /\ exists dims vars grps,
       dict_get w self "dimensions"
       = Some (POrderedDict (OrderedDict.of_items dims))
       /\ dict_get w self "variables"
          = Some (POrderedDict (OrderedDict.of_items vars))
       /\ dict_get w self "groups"
          = Some (POrderedDict (OrderedDict.of_items grps))
       /\ children_of w (PRef self) PDim (Group.dimensions g) dims
       /\ children_of w (PRef self) PVar (Group.variables g) vars
       /\ children_of w (PRef self) PGrp (Group.groups g) grps.

(** The ordered mapping [od] of object [self] mirrors the container [l]:
    its keys are the names of [l] in the order of [l], and the value under a
    key is a mimic of an element of that name whose [group()] is [self]. *)
Definition mirrors {A} `{Named A} (w : world) (self : objid)
    (wrap : A -> pyval) (l : list A) (od : OrderedDict.t) : Prop :=
  OrderedDict.keys od = Container.names l
  /\ forall k v, (k, v) ∈ od ->
       exists c a,
         v = PRef c
         /\ a ∈ l
         /\ name_of a = k
         /\ dict_get w c "ncobj" = Some (wrap a)
         /\ Nc4ComponentMimic.group c w = (Ok (PRef self), w).

(** The name a dimension reference stands for. *)
Definition dimref_name (r : dimref) : string :=
  match r with
  | DimObj d => Dimension.name d
  | DimName s => s
  end.

(** The nodes of a wrapped group: the group, its dimensions, its variables
    and the nodes of its subgroups. *)
Fixpoint node_count (g : Group.t) : nat :=
  S (length (Group.dimensions g) + length (Group.variables g)
     + sum_list (map node_count (Group.groups g))).

(** Object [c] is a mimic of class [k] that wraps [nco] under the group
    mimic [self], and was created after it. *)
Definition leaf_of (w : world) (self : objid) (k : cls) (nco : pyval)
    (c : objid) : Prop :=
  self < c /\ type_of w c = Some k /\ child_of w (PRef self) nco c.

(** Object [self] is a group mimic of [g] built at every level: its three
    mappings were made from one pair per element of the wrapped collection,
    in order and keyed by name; the pairs for dimensions and variables hold
    leaf mimics, the pair for a subgroup holds a group mimic of that
    subgroup that is itself built at every level. *)
Inductive deep_built (w : world) : objid -> Group.t -> pyval -> Prop :=
  | deep_built_intro (self : objid) (g : Group.t) (parent : pyval)
      (dims vars grps : list (string * pyval)) :
      type_of w self = Some CGroupMimic ->
      child_of w parent (PGrp g) self ->
      dict_get w self "dimensions"
      = Some (POrderedDict (OrderedDict.of_items dims)) ->
      dict_get w self "variables"
      = Some (POrderedDict (OrderedDict.of_items vars)) ->
      dict_get w self "groups"
      = Some (POrderedDict (OrderedDict.of_items grps)) ->
      Forall2 (fun d kv =>
                 kv.1 = Dimension.name d
                 /\ exists c, kv.2 = PRef c
                              /\ leaf_of w self CDimensionMimic (PDim d) c)
              (Group.dimensions g) dims ->
      Forall2 (fun v kv =>
                 kv.1 = NcVariable.name v
                 /\ exists c, kv.2 = PRef c
                              /\ leaf_of w self CVariableMimic (PVar v) c)
              (Group.variables g) vars ->
      Forall2 (fun sub kv =>
                 kv.1 = Group.name sub
                 /\ exists c, kv.2 = PRef c /\ self < c
                              /\ deep_built w c sub (PRef self))
              (Group.groups g) grps ->
      deep_built w self g parent.

(** A constructor call that returns a fresh object, adds [cnt a] objects
    after the existing ones, changes none of them, and establishes [Q]. *)
Definition builds {A} (Q : world -> A -> objid -> Prop) (cnt : A -> nat)
    (ctor : A -> M objid) (a : A) : Prop :=
  forall w, exists w',
    ctor a w = (Ok (length (heap w)), w')
    /\ frame w w'
    /\ length (heap w') = length (heap w) + cnt a
    /\ 0 < cnt a
    /\ Q w' a (length (heap w)).

(** * Properties *)

(** ** Attribute reads *)

Lemma self_ncobj_ok (w : world) (self : objid) (v : pyval) :
  dict_get w self "ncobj" = Some v ->
  self_ncobj self w = (Ok v, w).
Proof.
  unfold dict_get, self_ncobj.
  destruct (heap w !! self) as [ob|]; [|discriminate].
  now intros ->.
Qed.

Lemma find_property_None (c : cls) (name : string) :
  name ∉ properties c -> find_property c name = None.
Proof.
  unfold find_property, properties.
  induction (property_table c) as [|[n f] t IH]; simpl; [done|].
  intros Hn. case_bool_decide as E; simpl in *.
  - exfalso. apply Hn. subst. left.
  - apply IH. intros Hin. apply Hn. now right.
Qed.

Lemma py_getattr_dict (w : world) (self : objid) (c : cls)
    (name : string) (v : pyval) :
  type_of w self = Some c ->
  name ∉ properties c ->
  dict_get w self name = Some v ->
  py_getattr self name w = (Ok v, w).
Proof.
  unfold type_of, dict_get, py_getattr.
  destruct (heap w !! self) as [ob|]; simpl; [|discriminate].
  intros [= <-] Hp ->. now rewrite find_property_None.
Qed.

Lemma py_getattr_unknown (w : world) (self : objid) (c : cls)
    (name : string) :
  type_of w self = Some c ->
  name ∉ class_namespace c ->
  dict_get w self name = None ->
  py_getattr self name w = getattr_hook c self name w.
Proof.
  unfold class_namespace. intros Ht Hn Hd.
  assert (Hp : name ∉ properties c)
    by (intros ?; apply Hn; apply elem_of_app; now left).
  assert (Hm : name ∉ method_table c ++ object_namespace)
    by (intros ?; apply Hn; apply elem_of_app; now right).
  clear Hn. revert Ht Hd. unfold type_of, dict_get, py_getattr.
  destruct (heap w !! self) as [[c' d]|]; [|discriminate].
  cbn [fmap option_fmap option_map ob_type ob_dict].
  intros [= ->] ->.
  rewrite find_property_None by done.
  now rewrite bool_decide_eq_false_2.
Qed.

Lemma instance_attr_dict (w : world) (self : objid) (name : string)
    (v : pyval) :
  dict_get w self name = Some v ->
  instance_attr self name w = (Ok v, w).
Proof.
  unfold dict_get, instance_attr.
  destruct (heap w !! self) as [ob|]; [|discriminate].
  now intros ->.
Qed.

(** Reading [self.ncobj] through the general lookup is [self_ncobj]. *)
Lemma py_getattr_ncobj (w : world) (self : objid) :
  py_getattr self "ncobj" w = self_ncobj self w.
Proof.
  unfold py_getattr, self_ncobj.
  destruct (heap w !! self) as [[c d]|] eqn:Hh; [|done].
  cbn [ob_type ob_dict].
  replace (find_property c "ncobj") with (@None (objid -> M pyval))
    by (destruct c; reflexivity).
  destruct (d !! "ncobj") eqn:Hd; [done|].
  replace (bool_decide ("ncobj" ∈ method_table c ++ object_namespace))
    with false by (destruct c; vm_compute; reflexivity).
  unfold getattr_hook. destruct (has_getattr_hook c) eqn:Hk; [|done].
  unfold Nc4ComponentAttrsMimic.__getattr__,
    Nc4ComponentAttrsMimic.getncattr, bind, self_ncobj.
  rewrite Hh. cbn [ob_type ob_dict]. now rewrite Hd, Hk.
Qed.

(** For a name outside the namespace of the class, the general lookup is
    the instance dictionary followed by the hook. *)
Lemma py_getattr_instance_attr (w : world) (self : objid) (c : cls)
    (name : string) :
  type_of w self = Some c ->
  name ∉ class_namespace c ->
  py_getattr self name w = instance_attr self name w.
Proof.
  intros Ht Hn. destruct (dict_get w self name) as [v|] eqn:Hd.
  - rewrite (instance_attr_dict _ _ _ _ Hd).
    apply (py_getattr_dict _ _ c); [done| |done].
    intros Hin. apply Hn. unfold class_namespace. apply elem_of_app. now left.
  - rewrite (py_getattr_unknown _ _ _ _ Ht Hn Hd).
    revert Ht Hd. unfold type_of, dict_get, instance_attr.
    destruct (heap w !! self) as [[c' d]|]; [|discriminate].
    cbn [fmap option_fmap option_map ob_type ob_dict].
    now intros [= ->] ->.
Qed.

(** The reads [self.ndim] and [self.dtype] of a variable mimic, as they
    appear in [__getitem__] and [datatype]. *)
Lemma py_getattr_variable_property (w : world) (self : objid) :
  type_of w self = Some CVariableMimic ->
  py_getattr self "ndim" w = with_hook self "ndim" (VariableMimic.ndim self) w
  /\ py_getattr self "dtype" w
     = with_hook self "dtype" (VariableMimic.dtype self) w.
Proof.
  unfold type_of, py_getattr.
  destruct (heap w !! self) as [[c d]|]; [|discriminate].
  cbn [fmap option_fmap option_map ob_type]. now intros [= ->].
Qed.

Lemma getitem_of_name {A} `{Named A} (c : list A) (key : string) :
  key ∈ Container.names c ->
  exists a, Container.getitem c key = Some a /\ a ∈ c /\ name_of a = key.
Proof.
  unfold Container.names, Container.getitem.
  induction c as [|a c IH]; simpl.
  - intros Hin. inversion Hin.
  - intros Hin. case_bool_decide as E.
    + exists a. split; [done|]. split; [left | done].
    + apply elem_of_cons in Hin as [Hin|Hin]; [congruence|].
      destruct (IH Hin) as (b & ? & ? & ?).
      exists b. split; [done|]. split; [now right | done].
Qed.

(** ** Dimensions *)

Lemma DimensionMimic_isunlimited_run (w : world) (self : objid)
    (d : Dimension.t) :
  dict_get w self "ncobj" = Some (PDim d) ->
  DimensionMimic.isunlimited self w
  = (Ok (Dimension.unlimited d || bool_decide (Dimension.length d = 0%Z)), w).
Proof.
  intros Hn. unfold DimensionMimic.isunlimited, bind.
  rewrite (self_ncobj_ok _ _ _ Hn). destruct d as [n len u].
  cbn [lift ncobj_unlimited ncobj_length Dimension.unlimited
       Dimension.length ret].
  destruct u; [done|]. now rewrite (self_ncobj_ok _ _ _ Hn).
Qed.

Lemma DimensionMimic_size_run (w : world) (self : objid) (d : Dimension.t) :
  dict_get w self "ncobj" = Some (PDim d) ->
  DimensionMimic.size self w
  = (Ok (PInt (if Dimension.unlimited d
                  || bool_decide (Dimension.length d = 0%Z)
               then 0%Z else Dimension.length d)), w).
Proof.
  intros Hn. unfold DimensionMimic.size, bind.
  rewrite (DimensionMimic_isunlimited_run _ _ _ Hn).
  destruct (Dimension.unlimited d || bool_decide (Dimension.length d = 0%Z));
    [done|].
  now rewrite (self_ncobj_ok _ _ _ Hn).
Qed.

(** C4: the size of a dimension mimic is 0 when the wrapped dimension is
    flagged unlimited or has declared length zero, and the declared length
    otherwise; [isunlimited()] answers true exactly in the first case.
    Neither read changes the state. *)
Theorem DimensionMimic_size_isunlimited (w : world) (self : objid)
    (d : Dimension.t) :
  dict_get w self "ncobj" = Some (PDim d) ->
  let unlimited := Dimension.unlimited d = true \/ Dimension.length d = 0%Z in
  (exists b, DimensionMimic.isunlimited self w = (Ok b, w)
             /\ (b = true <-> unlimited))
  /\ (unlimited -> DimensionMimic.size self w = (Ok (PInt 0), w))
  /\ (~ unlimited ->
      DimensionMimic.size self w = (Ok (PInt (Dimension.length d)), w)).
Proof.
  intros Hn unlimited. subst unlimited.
  rewrite (DimensionMimic_isunlimited_run _ _ _ Hn),
    (DimensionMimic_size_run _ _ _ Hn).
  assert (Hb : Dimension.unlimited d
               || bool_decide (Dimension.length d = 0%Z) = true
               <-> Dimension.unlimited d = true \/ Dimension.length d = 0%Z).
  { rewrite orb_true_iff, bool_decide_eq_true. tauto. }
  split; [eexists; split; [reflexivity|exact Hb]|].
  split; intros Hu.
  - apply Hb in Hu. now rewrite Hu.
  - destruct (Dimension.unlimited d
              || bool_decide (Dimension.length d = 0%Z)) eqn:E; [|done].
    exfalso. apply Hu, Hb. reflexivity.
Qed.

Lemma DimensionMimic_size_isunlimited_witness :
  DimensionMimic.size 2 Sample.world_group = (Ok (PInt 0), Sample.world_group).
Proof.
  assert (Hn : dict_get Sample.world_group 2 "ncobj"
               = Some (PDim Sample.dim_time)) by (vm_compute; reflexivity).
  apply (DimensionMimic_size_isunlimited _ _ _ Hn). left. reflexivity.
Defined.

(** The other cases on the sample: a fixed dimension and a dimension of
    declared length zero. *)
Example DimensionMimic_size_sample :
  fst (DimensionMimic.size 1 Sample.world_group) = Ok (PInt 3)
  /\ fst (DimensionMimic.isunlimited 1 Sample.world_group) = Ok false
  /\ fst (DimensionMimic.size 6 Sample.world_group) = Ok (PInt 0)
  /\ fst (DimensionMimic.isunlimited 6 Sample.world_group) = Ok true.
Proof. vm_compute. auto. Qed.

(** The property read [dim.size] gives what the getter gives. *)
Lemma DimensionMimic_size_property (w : world) (self : objid)
    (d : Dimension.t) :
  type_of w self = Some CDimensionMimic ->
  dict_get w self "ncobj" = Some (PDim d) ->
  py_getattr self "size" w = DimensionMimic.size self w.
Proof.
  intros Ht Hn. unfold py_getattr. revert Ht. unfold type_of.
  destruct (heap w !! self) as [[c dict]|] eqn:Hh; [|discriminate].
  intros [= ->]. cbn [ob_type]. change (find_property CDimensionMimic "size")
    with (Some DimensionMimic.size).
  unfold with_hook. now rewrite (DimensionMimic_size_run _ _ _ Hn).
Qed.

(** ** Variables *)

(** C5: an indexed read on the mimic of a zero-dimensional variable gives
    the data object itself, whatever the keys; for any other
    dimensionality it gives what the data array gives for these keys.  The
    mimic touches nothing else. *)
Theorem VariableMimic_getitem `{Externals} (w : world) (self : objid)
    (v : NcVariable.t) (keys : pyval) :
  dict_get w self "ncobj" = Some (PVar v) ->
  (Array.ndim (NcVariable.data v) = 0%Z ->
   VariableMimic.__getitem__ self keys w
   = (Ok (PAtom (AArray (NcVariable.data v))), w))
  /\ (Array.ndim (NcVariable.data v) <> 0%Z ->
      VariableMimic.__getitem__ self keys w
      = (array_getitem (NcVariable.data v) keys, w)).
Proof.
  intros Hn.
  unfold VariableMimic.__getitem__, VariableMimic.ndim, with_hook, bind.
  rewrite (self_ncobj_ok _ _ _ Hn).
  cbn [lift ncobj_data ret py_eq_zero].
  split; intros Hd.
  - rewrite bool_decide_eq_true_2 by done.
    now rewrite (self_ncobj_ok _ _ _ Hn).
  - rewrite bool_decide_eq_false_2 by done.
    now rewrite (self_ncobj_ok _ _ _ Hn).
Qed.

Lemma VariableMimic_getitem_witness :
  @VariableMimic.__getitem__ Sample.friendly 4 (PInt 5) Sample.world_group
  = (Ok (PAtom (AArray Sample.scalar)), Sample.world_group).
Proof.
  assert (Hn : dict_get Sample.world_group 4 "ncobj"
               = Some (PVar Sample.var_height)) by (vm_compute; reflexivity).
  apply (@VariableMimic_getitem Sample.friendly _ _ _ (PInt 5) Hn).
  reflexivity.
Defined.

(** The other branch on the same state: the one-dimensional variable hands
    the key to its array. *)
Example VariableMimic_getitem_vector :
  fst (@VariableMimic.__getitem__ Sample.friendly 3 (PInt 1)
         Sample.world_group)
  = Ok (PInt 20).
Proof. vm_compute. reflexivity. Qed.

(** ** Attributes *)

Lemma getncattr_found (w : world) (self : objid) (nco : pyval)
    (attrs : list Attribute.t) (attr_name : string) (a : Attribute.t) :
  dict_get w self "ncobj" = Some nco ->
  ncobj_attributes nco = Ok attrs ->
  Container.getitem attrs attr_name = Some a ->
  Nc4ComponentAttrsMimic.getncattr self attr_name w
  = (Ok (PAtom (Attribute.value a)), w).
Proof.
  intros Hn Ha Hg.
  unfold Nc4ComponentAttrsMimic.getncattr, bind.
  rewrite (self_ncobj_ok _ _ _ Hn). unfold lift. rewrite Ha.
  rewrite bool_decide_eq_true_2; [now rewrite Hg|].
  unfold Container.getitem in Hg. apply find_some in Hg as [Hin Hname].
  apply bool_decide_eq_true_1 in Hname. subst attr_name.
  unfold Container.names. apply list_elem_of_In, in_map, Hin.
Qed.

(** C7: for a name in the attribute collection of the wrapped node,
    [getncattr] returns the value of the attribute the collection holds
    under that name, and leaves the state as it was. *)
Theorem getncattr_present (w : world) (self : objid) (nco : pyval)
    (attrs : list Attribute.t) (attr_name : string) :
  dict_get w self "ncobj" = Some nco ->
  ncobj_attributes nco = Ok attrs ->
  attr_name ∈ Container.names attrs ->
  exists a,
    Container.getitem attrs attr_name = Some a
    /\ a ∈ attrs
    /\ Attribute.name a = attr_name
    /\ Nc4ComponentAttrsMimic.getncattr self attr_name w
       = (Ok (PAtom (Attribute.value a)), w).
Proof.
  intros Hn Ha Hin.
  destruct (getitem_of_name attrs attr_name Hin) as (a & Hg & Hm & Hname).
  exists a. repeat split; try done.
  now apply (getncattr_found w self nco attrs).
Qed.

Lemma getncattr_present_witness :
  exists a,
    Container.getitem (NcVariable.attributes Sample.var_temp) "units" = Some a
    /\ a ∈ NcVariable.attributes Sample.var_temp
    /\ Attribute.name a = "units"
    /\ Nc4ComponentAttrsMimic.getncattr 3 "units" Sample.world_group
       = (Ok (PAtom (Attribute.value a)), Sample.world_group).
Proof.
  apply (getncattr_present Sample.world_group 3 (PVar Sample.var_temp)).
  - vm_compute. reflexivity.
  - reflexivity.
  - apply (bool_decide_unpack _). vm_compute. exact I.
Defined.

(** ** Equality of mimics *)

(** C10, as amended: [__eq__] compares the wrapped components and nothing
    else.  The operator [a == b] gives [a.ncobj == b.ncobj], except when the
    class of [b] properly extends the class of [a] (a dataset mimic on the
    right of a group mimic): then [b] is asked first and the answer is
    [b.ncobj == a.ncobj].  [a != b] is the negation of [a == b].  With a
    symmetric comparison of components the exception makes no difference
    and [a == b] is [a.ncobj == b.ncobj] for all mimics. *)
Theorem mimic_equality `{Externals} (w : world) (a b : objid) (ca cb : cls)
    (va vb : pyval) :
  type_of w a = Some ca ->
  type_of w b = Some cb ->
  dict_get w a "ncobj" = Some va ->
  dict_get w b "ncobj" = Some vb ->
  Nc4ComponentMimic.__eq__ a b w = (ncobj_eq va vb, w)
  /\ Nc4ComponentMimic.op_eq a b w
     = (if proper_subclass cb ca then ncobj_eq vb va else ncobj_eq va vb, w)
  /\ Nc4ComponentMimic.op_ne a b w
     = (negate (fst (Nc4ComponentMimic.op_eq a b w)), w)
  /\ ((forall x y, ncobj_eq x y = ncobj_eq y x) ->
      Nc4ComponentMimic.op_eq a b w = (ncobj_eq va vb, w)).
Proof.
  intros Ha Hb Hva Hvb.
  assert (Heq : forall x y vx vy,
             dict_get w x "ncobj" = Some vx -> dict_get w y "ncobj" = Some vy ->
             Nc4ComponentMimic.__eq__ x y w = (ncobj_eq vx vy, w)).
  { intros x y vx vy Hx Hy. unfold Nc4ComponentMimic.__eq__, bind.
    now rewrite (self_ncobj_ok _ _ _ Hx), (self_ncobj_ok _ _ _ Hy). }
  assert (Hop : forall x y cx cy vx vy,
             type_of w x = Some cx -> type_of w y = Some cy ->
             dict_get w x "ncobj" = Some vx -> dict_get w y "ncobj" = Some vy ->
             Nc4ComponentMimic.op_eq x y w
             = (if proper_subclass cy cx then ncobj_eq vy vx
                else ncobj_eq vx vy, w)).
  { intros x y cx cy vx vy Hx Hy Hvx Hvy. unfold Nc4ComponentMimic.op_eq.
    rewrite Hx, Hy. destruct (proper_subclass cy cx).
    - apply (Heq y x); assumption.
    - apply (Heq x y); assumption. }
  split; [now apply Heq|]. split; [now apply Hop|]. split.
  - unfold Nc4ComponentMimic.op_ne, Nc4ComponentMimic.__ne__, bind.
    rewrite Ha, Hb.
    rewrite (Hop a b ca cb va vb), (Hop b a cb ca vb va) by assumption.
    cbn [fst]. unfold negate, ret.
    destruct ca, cb; cbn [proper_subclass];
      first [now destruct (ncobj_eq va vb) | now destruct (ncobj_eq vb va)].
  - intros Hsym. rewrite (Hop a b ca cb va vb) by assumption.
    destruct (proper_subclass cb ca); [now rewrite Hsym | done].
Qed.

Lemma mimic_equality_witness :
  @Nc4ComponentMimic.__eq__ Sample.friendly 4 7 Sample.world_group
  = (Ok true, Sample.world_group).
Proof.
  assert (Ht : type_of Sample.world_group 4 = Some CVariableMimic)
    by (vm_compute; reflexivity).
  assert (Ht' : type_of Sample.world_group 7 = Some CVariableMimic)
    by (vm_compute; reflexivity).
  assert (Hn : dict_get Sample.world_group 4 "ncobj"
               = Some (PVar Sample.var_height)) by (vm_compute; reflexivity).
  assert (Hn' : dict_get Sample.world_group 7 "ncobj"
                = Some (PVar Sample.var_height)) by (vm_compute; reflexivity).
  exact (proj1 (@mimic_equality Sample.friendly _ _ _ _ _ _ _ Ht Ht' Hn Hn')).
Defined.

(** C10, as the claim has it, fails: with a one-sided comparison of
    components, a group mimic [a] of [grp_root] and a dataset mimic [b] of
    [grp_bare] have [a == b] true, while [a.ncobj == b.ncobj] is false; the
    answer is the one of [b.ncobj == a.ncobj]. *)
Lemma mimic_equality_counterexample :
  let w := Sample.world_group_and_dataset in
  type_of w 0 = Some CGroupMimic
  /\ type_of w 8 = Some CNc4DatasetMimic
  /\ dict_get w 0 "ncobj" = Some (PGrp Sample.grp_root)
  /\ dict_get w 8 "ncobj" = Some (PGrp Sample.grp_bare)
  /\ @ncobj_eq Sample.one_sided (PGrp Sample.grp_root) (PGrp Sample.grp_bare)
     = Ok false
  /\ @ncobj_eq Sample.one_sided (PGrp Sample.grp_bare) (PGrp Sample.grp_root)
     = Ok true
  /\ @Nc4ComponentMimic.op_eq Sample.one_sided 0 8 w = (Ok true, w)
  /\ @Nc4ComponentMimic.op_ne Sample.one_sided 0 8 w = (Ok false, w).
Proof. vm_compute. repeat split. Qed.

(** Two mimics of one component under different parents are equal: the
    variable [height] of the root group and the one of the inner group. *)
Example mimic_equality_ignores_parent :
  fst (@Nc4ComponentMimic.op_eq Sample.friendly 4 7 Sample.world_group)
  = Ok true
  /\ dict_get Sample.world_group 4 "_parent_group_ncobj" = Some (PRef 0)
  /\ dict_get Sample.world_group 7 "_parent_group_ncobj" = Some (PRef 5).
Proof. vm_compute. auto. Qed.

(** ** Closing a dataset mimic *)

Lemma file_mode_read (w : world) (self : objid) (v : pyval) :
  type_of w self = Some CNc4DatasetMimic ->
  dict_get w self "_file_mode" = Some v ->
  py_getattr self "_file_mode" w = (Ok v, w).
Proof.
  intros Ht Hd. apply (py_getattr_dict _ _ _ _ _ Ht); [|done].
  apply (proj1 (bool_decide_eq_false _)). vm_compute. reflexivity.
Qed.

(** C8: when the stored mode is a string without the letter [w], [close]
    returns [None] and the state after it is the state before it: no
    object changed, no global changed, no file-layer event. *)
Theorem close_read_mode_noop `{Externals} (w : world) (self : objid)
    (mode : string) :
  type_of w self = Some CNc4DatasetMimic ->
  dict_get w self "_file_mode" = Some (PStr mode) ->
  str_contains "w" mode = false ->
  Nc4DatasetMimic.close self w = (Ok PNone, w).
Proof.
  intros Ht Hd Hm. unfold Nc4DatasetMimic.close, bind.
  rewrite (file_mode_read _ _ _ Ht Hd).
  cbn [lift py_contains]. now rewrite Hm.
Qed.

Lemma close_read_mode_noop_witness :
  @Nc4DatasetMimic.close Sample.friendly 0
     (Sample.world_dataset "r" Sample.grp_root)
  = (Ok PNone, Sample.world_dataset "r" Sample.grp_root).
Proof.
  apply (@close_read_mode_noop Sample.friendly _ _ "r").
  - vm_compute. reflexivity.
  - vm_compute. reflexivity.
  - vm_compute. reflexivity.
Defined.

(** *** Reads do not change the state *)

Lemma pure_run {A} (m : M A) (w : world) :
  pure m -> exists r, m w = (r, w).
Proof.
  intros Hp. specialize (Hp w). destruct (m w) as [r w'].
  simpl in Hp. subst. now exists r.
Qed.

Lemma pure_ret {A} (a : A) : pure (ret a).
Proof. now intros w. Qed.

Lemma pure_raise {A} (e : exn) : pure (@raise A e).
Proof. now intros w. Qed.

Lemma pure_lift {A} (r : result A) : pure (lift r).
Proof. now intros w. Qed.

Lemma pure_bind {A B} (m : M A) (k : A -> M B) :
  pure m -> (forall a, pure (k a)) -> pure (bind m k).
Proof.
  intros Hm Hk w. unfold bind.
  destruct (pure_run m w Hm) as [r ->].
  destruct r as [a|e]; [apply Hk | done].
Qed.

Lemma pure_self_ncobj (self : objid) : pure (self_ncobj self).
Proof.
  intros w. unfold self_ncobj.
  destruct (heap w !! self) as [ob|]; [|done].
  now destruct (ob_dict ob !! "ncobj").
Qed.

Lemma pure_load_global (name : string) : pure (load_global name).
Proof. intros w. unfold load_global. now destruct (globals w !! name). Qed.

Create HintDb pure.
#[local] Hint Resolve pure_ret pure_raise pure_lift pure_self_ncobj
  pure_load_global : pure.

Local Ltac pure_steps :=
  repeat first
    [ apply pure_bind; [|intros ?]
    | progress eauto with pure
    | match goal with
      | |- pure (if ?b then _ else _) => destruct b
      | |- pure (match ?x with _ => _ end) => destruct x
      end ].

Lemma pure_getncattr (self : objid) (attr_name : string) :
  pure (Nc4ComponentAttrsMimic.getncattr self attr_name).
Proof. unfold Nc4ComponentAttrsMimic.getncattr. pure_steps. Qed.

Lemma pure_getattr_hook (c : cls) (self : objid) (name : string) :
  pure (getattr_hook c self name).
Proof.
  unfold getattr_hook, Nc4ComponentAttrsMimic.__getattr__.
  destruct (has_getattr_hook c); [apply pure_getncattr | apply pure_raise].
Qed.

Lemma pure_with_hook (self : objid) (name : string) (getter : M pyval) :
  pure getter -> pure (with_hook self name getter).
Proof.
  intros Hg w. unfold with_hook.
  destruct (pure_run getter w Hg) as [r ->].
  destruct r as [v|e]; [done|].
  destruct e; try done.
  destruct (type_of w self); [apply pure_getattr_hook | done].
Qed.

Lemma pure_isunlimited (self : objid) : pure (DimensionMimic.isunlimited self).
Proof. unfold DimensionMimic.isunlimited. pure_steps. Qed.

Lemma pure_property (c : cls) (name : string) (getter : objid -> M pyval)
    (self : objid) :
  find_property c name = Some getter -> pure (getter self).
Proof.
  unfold find_property.
  assert (Hall : Forall (fun p => pure (p.2 self)) (property_table c)).
  { destruct c; repeat constructor; cbn [snd];
      unfold Nc4ComponentMimic.name, DimensionMimic.size,
        VariableMimic.dtype, VariableMimic.datatype,
        VariableMimic.dimensions, VariableMimic.shape, VariableMimic.ndim,
        VariableMimic.size;
      try (apply pure_with_hook; unfold VariableMimic.dtype);
      try (apply pure_bind; [apply pure_isunlimited | intros ?]);
      pure_steps. }
  induction Hall as [|[n g] t Hg _ IH]; cbn [find]; [discriminate|].
  case_bool_decide; [now intros [= <-] | exact IH].
Qed.

Lemma pure_py_getattr (self : objid) (name : string) :
  pure (py_getattr self name).
Proof.
  intros w. unfold py_getattr.
  destruct (heap w !! self) as [ob|]; [|done].
  destruct (find_property (ob_type ob) name) as [g|] eqn:Hf.
  - apply pure_with_hook. eapply pure_property, Hf.
  - destruct (ob_dict ob !! name); [done|].
    case_bool_decide; [done | apply pure_getattr_hook].
Qed.

(** *** The [with] block *)

(** Once the context expression has produced a dataset, the block gives the
    outcome of its body and closes the dataset, whether the body returned or
    raised. *)
Lemma with_dataset_closes {A} (ctx : M handle) (body : handle -> M A)
    (w w1 : world) (ds : handle) :
  ctx w = (Ok ds, w1) ->
  with_dataset ctx body w
  = (fst (body ds w1),
     mkworld (heap (snd (body ds w1))) (globals (snd (body ds w1)))
             (trace (snd (body ds w1)) ++ [EvClose ds])).
Proof.
  intros Hc. unfold with_dataset. rewrite Hc.
  now destruct (body ds w1) as [r w2].
Qed.

(** When the context expression raises, the body does not run and nothing
    is closed. *)
Lemma with_dataset_not_entered {A} (ctx : M handle) (body : handle -> M A)
    (w w1 : world) (e : exn) :
  ctx w = (Raise e, w1) ->
  with_dataset ctx body w = (Raise e, w1).
Proof. intros Hc. unfold with_dataset. now rewrite Hc. Qed.

(** *** Write mode *)

(** Whatever the state and whatever the file layer and the encoder do,
    the events of one [close] are none at all, or they start with the one
    dataset opened and end with that dataset closed, with at most the run
    of the encoder on it in between; [close] changes nothing else.  So no
    dataset opened by [close] is open when [close] ends, by a return or by
    an exception. *)
Lemma close_handle_scoped `{Externals} (w : world) (self : objid) :
  exists r evs,
    Nc4DatasetMimic.close self w
    = (r, mkworld (heap w) (globals w) (trace w ++ evs))
    /\ still_open evs = []
    /\ (evs = []
        \/ exists filename mode kwargs inside,
             let ds := length (trace w) in
             evs = EvOpen filename mode kwargs ds :: inside ++ [EvClose ds]
             /\ (inside = [] \/ exists root, inside = [EvWrite ds root])).
Proof.
  assert (Hnone : forall r : result pyval, exists r' evs,
             (r, w) = (r', mkworld (heap w) (globals w) (trace w ++ evs))
             /\ still_open evs = []
             /\ (evs = []
                 \/ exists filename mode kwargs inside,
                      let ds := length (trace w) in
                      evs = EvOpen filename mode kwargs ds
                              :: inside ++ [EvClose ds]
                      /\ (inside = []
                          \/ exists root, inside = [EvWrite ds root]))).
  { intros r. exists r, []. rewrite app_nil_r. destruct w. auto. }
  unfold Nc4DatasetMimic.close, bind.
  destruct (pure_run _ w (pure_py_getattr self "_file_mode")) as [r0 ->].
  destruct r0 as [fm|e]; [|apply Hnone].
  cbn [lift]. destruct (py_contains "w" fm) as [b|e]; [|apply Hnone].
  destruct b; [|apply Hnone].
  unfold with_dataset, bind.
  destruct (pure_run _ w (pure_py_getattr self "file_path")) as [r1 ->].
  destruct r1 as [filename|e]; [|apply Hnone].
  destruct (pure_run _ w (pure_py_getattr self "file_mode")) as [r2 ->].
  destruct r2 as [mode|e]; [|apply Hnone].
  destruct (pure_run _ w (pure_load_global "kwargs")) as [r3 ->].
  destruct r3 as [kwargs|e]; [|apply Hnone].
  unfold open_dataset.
  destruct (nc_Dataset filename mode kwargs (trace w)) as [e|]; [apply Hnone|].
  set (ds := length (trace w)).
  cbn [log snd].
  set (w1 := mkworld (heap w) (globals w)
                     (trace w ++ [EvOpen filename mode kwargs ds])).
  destruct (pure_run _ w1 (pure_py_getattr self "ncobj")) as [r4 ->].
  destruct r4 as [root|e].
  - unfold call_ncobj_write. cbn [log snd heap globals trace].
    subst w1. cbn [heap globals trace].
    exists (match ncobj_write ds root
                    (trace w ++ [EvOpen filename mode kwargs ds]) with
            | Some e => Raise e
            | None => Ok PNone
            end),
      (EvOpen filename mode kwargs ds :: [EvWrite ds root] ++ [EvClose ds]).
    split; [|split].
    + destruct (ncobj_write ds root _); unfold ret;
        cbn [app heap globals trace]; now rewrite <- !app_assoc.
    + unfold still_open. cbn. now rewrite decide_False by auto.
    + right. exists filename, mode, kwargs, [EvWrite ds root].
      cbn zeta. split; [done|]. right. now exists root.
  - subst w1. cbn [heap globals trace].
    exists (Raise e), (EvOpen filename mode kwargs ds :: [] ++ [EvClose ds]).
    split; [|split].
    + cbn [app heap globals trace]. now rewrite <- !app_assoc.
    + unfold still_open. cbn. now rewrite decide_False by auto.
    + right. exists filename, mode, kwargs, []. cbn zeta. auto.
Qed.

(** On a state where the global name [kwargs] is bound and the attributes
    of the group supply [file_path] and [file_mode], a dataset is opened;
    it is closed although the encoder raises. *)
Example close_closes_after_encoder_failure :
  let w := Sample.world_patched "w" Sample.grp_with_paths in
  let out := @Nc4DatasetMimic.close Sample.failing_encoder 0 w in
  fst out = Raise (ExternalError 7)
  /\ trace (snd out)
     = [EvOpen (PStr "attr.nc") (PStr "w") (POrderedDict []) 0;
        EvWrite 0 (PGrp Sample.grp_with_paths);
        EvClose 0].
Proof. vm_compute. auto. Qed.

Lemma getncattr_absent_raises (w : world) (self : objid) (nco : pyval)
    (attrs : list Attribute.t) (attr_name : string) :
  dict_get w self "ncobj" = Some nco ->
  ncobj_attributes nco = Ok attrs ->
  attr_name ∉ Container.names attrs ->
  Nc4ComponentAttrsMimic.getncattr self attr_name w = (Raise AttributeError, w).
Proof.
  intros Hn Ha Hout. unfold Nc4ComponentAttrsMimic.getncattr, bind.
  rewrite (self_ncobj_ok _ _ _ Hn). unfold lift. rewrite Ha.
  now rewrite bool_decide_eq_false_2.
Qed.

(** A read of [name] on a dataset mimic whose instance dictionary and class
    do not have it is answered from the attributes of the wrapped group. *)
Lemma dataset_attr_from_group (w : world) (self : objid) (g : Group.t)
    (name : string) :
  type_of w self = Some CNc4DatasetMimic ->
  dict_get w self "ncobj" = Some (PGrp g) ->
  dict_get w self name = None ->
  name ∉ class_namespace CNc4DatasetMimic ->
  py_getattr self name w
  = (match Container.getitem (Group.attributes g) name with
     | Some a => Ok (PAtom (Attribute.value a))
     | None => Raise AttributeError
     end, w).
Proof.
  intros Ht Hn Hd Hc. rewrite (py_getattr_unknown _ _ _ _ Ht Hc Hd).
  unfold getattr_hook, Nc4ComponentAttrsMimic.__getattr__.
  cbn [has_getattr_hook].
  destruct (Container.getitem (Group.attributes g) name) as [a|] eqn:Hg.
  - now apply (getncattr_found w self (PGrp g) (Group.attributes g)).
  - apply (getncattr_absent_raises w self (PGrp g) (Group.attributes g));
      [done..|].
    intros Hin. destruct (getitem_of_name _ _ Hin) as (a & Ha & _).
    congruence.
Qed.

(** In write mode, on a state where the module has no global [kwargs],
    [close] of a mimic whose own fields are the four its initialiser sets
    ends in an exception before the file layer is reached, and the state is
    untouched: an [AttributeError] from the read of [self.file_path] or
    [self.file_mode], or else a [NameError] for [kwargs]. *)
Lemma close_write_mode_raises `{Externals} (w : world) (self : objid)
    (mode : string) (g : Group.t) :
  type_of w self = Some CNc4DatasetMimic ->
  dict_get w self "_file_mode" = Some (PStr mode) ->
  str_contains "w" mode = true ->
  dict_get w self "ncobj" = Some (PGrp g) ->
  dict_get w self "file_path" = None ->
  dict_get w self "file_mode" = None ->
  globals w !! "kwargs" = None ->
  Nc4DatasetMimic.close self w
  = (Raise
       (match Container.getitem (Group.attributes g) "file_path",
              Container.getitem (Group.attributes g) "file_mode" with
        | Some _, Some _ => NameError "kwargs"
        | _, _ => AttributeError
        end), w).
Proof.
  intros Ht Hm Hw Hn Hp Hfm Hk. unfold Nc4DatasetMimic.close, bind.
  rewrite (file_mode_read _ _ _ Ht Hm). cbn [lift py_contains]. rewrite Hw.
  unfold with_dataset, bind.
  rewrite (dataset_attr_from_group w self g "file_path" Ht Hn Hp)
    by (apply (proj1 (bool_decide_eq_false _)); vm_compute; reflexivity).
  destruct (Container.getitem (Group.attributes g) "file_path"); [|done].
  rewrite (dataset_attr_from_group w self g "file_mode" Ht Hn Hfm)
    by (apply (proj1 (bool_decide_eq_false _)); vm_compute; reflexivity).
  destruct (Container.getitem (Group.attributes g) "file_mode"); [|done].
  unfold load_global. now rewrite Hk.
Qed.

(** C2 (the code departs from it): a dataset mimic in write mode, built by
    the direct call [Nc4DatasetMimic('out.nc', 'w', grp)].  [close] raises
    [AttributeError] at [self.file_path]; when the group's attributes happen
    to supply [file_path] and [file_mode], it raises [NameError] at
    [kwargs].  Either way no dataset is opened and the encoder is not
    called. *)
Theorem close_write_mode_never_opens :
  let w1 := Sample.world_dataset "w" Sample.grp_root in
  let w2 := Sample.world_dataset "w" Sample.grp_with_paths in
  @Nc4DatasetMimic.close Sample.friendly 0 w1 = (Raise AttributeError, w1)
  /\ trace w1 = []
  /\ @Nc4DatasetMimic.close Sample.friendly 0 w2
     = (Raise (NameError "kwargs"), w2)
  /\ trace w2 = []
  /\ dict_get w1 0 "_filepath" = Some (PStr "out.nc")
  /\ dict_get w1 0 "_file_mode" = Some (PStr "w").
Proof.
  cbn zeta. split; [|split; [|split; [|split]]].
  - apply (@close_write_mode_raises Sample.friendly _ 0 "w" Sample.grp_root);
      vm_compute; reflexivity.
  - reflexivity.
  - apply (@close_write_mode_raises Sample.friendly _ 0 "w"
             Sample.grp_with_paths); vm_compute; reflexivity.
  - reflexivity.
  - vm_compute. auto.
Qed.


(** ** Constructing a dataset mimic *)

Lemma alter_new_object (h : list pyobj) (ob : pyobj) (f : pyobj -> pyobj) :
  alter f (length h) (h ++ [ob]) = h ++ [f ob].
Proof.
  replace (length h) with (length h + 0) by lia.
  now rewrite alter_app_r.
Qed.

(** C1 (the code departs from it): both factory functions end in a
    [TypeError], for every argument and in every state.  The initialiser of
    [Nc4DatasetMimic] passes on no argument, so the base initialiser misses
    its [nco_component].  What is left is the fresh object, never
    initialised and never returned. *)
Theorem factories_raise_TypeError (w : world) :
  let w' := set_heap (heap w ++ [mkobj CNc4DatasetMimic ∅]) w in
  (forall ncobj_group,
     fake_readable_nc4python_dataset ncobj_group w = (Raise TypeError, w'))
  /\ (forall file_path file_mode,
        fake_writeable_nc4python_dataset file_path file_mode w
        = (Raise TypeError, w')).
Proof. split; reflexivity. Qed.


(** ** The store under construction *)

Lemma frame_refl (w : world) : frame w w.
Proof. repeat split; auto. Qed.

Lemma frame_trans (w1 w2 w3 : world) :
  frame w1 w2 -> frame w2 w3 -> frame w1 w3.
Proof.
  intros (Hl1 & Ho1 & Hg1 & Ht1) (Hl2 & Ho2 & Hg2 & Ht2).
  repeat split; [lia| |congruence|congruence].
  intros o Ho. rewrite Ho2 by lia. now apply Ho1.
Qed.

Lemma frame_frame_except (self : objid) (w w' : world) :
  frame w w' -> frame_except self w w'.
Proof. intros (Hl & Ho & Hg & Ht). repeat split; auto. Qed.

Lemma frame_except_trans (self : objid) (w1 w2 w3 : world) :
  frame_except self w1 w2 -> frame_except self w2 w3 ->
  frame_except self w1 w3.
Proof.
  intros (Hl1 & Ho1 & Hg1 & Ht1) (Hl2 & Ho2 & Hg2 & Ht2).
  repeat split; [lia| |congruence|congruence].
  intros o Ho Hne. rewrite Ho2 by (auto; lia). now apply Ho1.
Qed.

Lemma frame_except_dict_get (self : objid) (w w' : world) (o : objid)
    (name : string) :
  frame_except self w w' -> o < length (heap w) -> o ≠ self ->
  dict_get w' o name = dict_get w o name.
Proof.
  intros (_ & Ho & _) Hlt Hne. unfold dict_get. now rewrite Ho.
Qed.

Lemma frame_dict_get (w w' : world) (o : objid) (name : string) :
  frame w w' -> o < length (heap w) ->
  dict_get w' o name = dict_get w o name.
Proof. intros (_ & Ho & _) Hlt. unfold dict_get. now rewrite Ho. Qed.

Lemma frame_type_of (w w' : world) (o : objid) :
  frame w w' -> o < length (heap w) -> type_of w' o = type_of w o.
Proof. intros (_ & Ho & _) Hlt. unfold type_of. now rewrite Ho. Qed.

Lemma child_of_frame_except (self : objid) (w w' : world)
    (parent nco : pyval) (c : objid) :
  frame_except self w w' -> c < length (heap w) -> c ≠ self ->
  child_of w parent nco c -> child_of w' parent nco c.
Proof.
  intros Hf Hlt Hne [Hp Hn]. split.
  - now rewrite (frame_except_dict_get self w w').
  - now rewrite (frame_except_dict_get self w w').
Qed.

Lemma dict_get_lt (w : world) (o : objid) (name : string) (v : pyval) :
  dict_get w o name = Some v -> o < length (heap w).
Proof.
  unfold dict_get. destruct (heap w !! o) eqn:Hh; [|discriminate].
  intros _. now apply lookup_lt_Some in Hh.
Qed.

(** *** Allocation and field assignment *)

Lemma alloc_frame (c : cls) (w : world) :
  frame w (snd (alloc c w))
  /\ length (heap (snd (alloc c w))) = S (length (heap w))
  /\ heap (snd (alloc c w)) !! length (heap w) = Some (mkobj c ∅).
Proof.
  unfold frame, alloc, set_heap. cbn [snd heap globals trace].
  rewrite length_app. cbn [length]. split; [|split].
  - split; [lia|]. split; [|done].
    intros o Ho. now rewrite lookup_app_l.
  - lia.
  - rewrite lookup_app_r by lia. now rewrite Nat.sub_diag.
Qed.

Lemma setattr_run (o : objid) (name : string) (v : pyval) (w : world) :
  setattr o name v w = (Ok tt, snd (setattr o name v w)).
Proof. reflexivity. Qed.

Lemma setattr_length (o : objid) (name : string) (v : pyval) (w : world) :
  length (heap (snd (setattr o name v w))) = length (heap w).
Proof. unfold setattr, set_heap. cbn [snd heap]. apply length_alter. Qed.

Lemma setattr_frame_except (o : objid) (name : string) (v : pyval)
    (w : world) :
  frame_except o w (snd (setattr o name v w)).
Proof.
  split; [now rewrite setattr_length|]. split; [|split; reflexivity].
  intros o' _ Hne. unfold setattr, set_heap. cbn [snd heap].
  now rewrite list_lookup_alter_ne.
Qed.

Lemma setattr_type_of (o : objid) (name : string) (v : pyval) (w : world)
    (o' : objid) :
  type_of (snd (setattr o name v w)) o' = type_of w o'.
Proof.
  unfold type_of, setattr, set_heap. cbn [snd heap].
  destruct (decide (o = o')) as [->|Hne].
  - rewrite list_lookup_alter_eq. now destruct (heap w !! o').
  - now rewrite list_lookup_alter_ne.
Qed.

Lemma setattr_dict_get_eq (o : objid) (name : string) (v : pyval)
    (w : world) :
  o < length (heap w) ->
  dict_get (snd (setattr o name v w)) o name = Some v.
Proof.
  intros Hlt. unfold dict_get, setattr, set_heap. cbn [snd heap].
  rewrite list_lookup_alter_eq.
  destruct (lookup_lt_is_Some_2 _ _ Hlt) as [ob ->].
  cbn. apply lookup_insert_eq.
Qed.

Lemma setattr_dict_get_ne (o : objid) (name : string) (v : pyval)
    (w : world) (o' : objid) (name' : string) :
  o ≠ o' \/ name ≠ name' ->
  dict_get (snd (setattr o name v w)) o' name' = dict_get w o' name'.
Proof.
  intros Hne. unfold dict_get, setattr, set_heap. cbn [snd heap].
  destruct (decide (o = o')) as [->|Ho].
  - rewrite list_lookup_alter_eq. destruct (heap w !! o'); [|done].
    cbn. apply lookup_insert_ne. now destruct Hne.
  - now rewrite list_lookup_alter_ne.
Qed.

(** *** The base initialiser and the leaf mimics *)

Lemma Nc4ComponentMimic_init_run (self : objid) (nco parent : pyval)
    (w : world) :
  Nc4ComponentMimic.__init__ self [nco] [("parent_grp", parent)] w
  = (Ok tt,
     snd (setattr self "_parent_group_ncobj" parent
            (snd (setattr self "ncobj" nco w)))).
Proof. reflexivity. Qed.

Lemma Nc4ComponentMimic_init_fields (self : objid) (nco parent : pyval)
    (w : world) :
  self < length (heap w) ->
  let w' := snd (setattr self "_parent_group_ncobj" parent
                   (snd (setattr self "ncobj" nco w))) in
  frame_except self w w'
  /\ length (heap w') = length (heap w)
  /\ type_of w' self = type_of w self
  /\ child_of w' parent nco self.
Proof.
  intros Hlt w'. subst w'. split; [|split; [|split; [|split]]].
  - eapply frame_except_trans; apply setattr_frame_except.
  - now rewrite !setattr_length.
  - now rewrite !setattr_type_of.
  - apply setattr_dict_get_eq. now rewrite setattr_length.
  - rewrite setattr_dict_get_ne by (right; discriminate).
    now apply setattr_dict_get_eq.
Qed.

Lemma Nc4ComponentMimic_new_builds {A} (c : cls) (parent : pyval)
    (wrap : A -> pyval) (a : A) :
  builds_child parent wrap
    (fun a => Nc4ComponentMimic.new c [wrap a] [("parent_grp", parent)]) a.
Proof.
  intros w. unfold Nc4ComponentMimic.new, bind.
  destruct (alloc_frame c w) as (Hf & Hlen & Hnew).
  change (alloc c w) with (Ok (length (heap w)), snd (alloc c w)).
  cbn iota beta. rewrite Nc4ComponentMimic_init_run. cbn iota beta.
  eexists. split; [reflexivity|].
  destruct (Nc4ComponentMimic_init_fields (length (heap w)) (wrap a) parent
              (snd (alloc c w))) as (Hfe & Hl & _ & Hc); [lia|].
  split; [|split; [lia|exact Hc]].
  destruct Hf as (Hf1 & Hf2 & Hf3 & Hf4).
  destruct Hfe as (He1 & He2 & He3 & He4).
  split; [lia|]. split; [|split; congruence].
  intros o Ho. rewrite He2 by lia. now apply Hf2.
Qed.

(** *** A comprehension of child mimics *)

Lemma comprehension_builds {A} `{Named A} (parent : pyval)
    (wrap : A -> pyval) (ctor : A -> M objid) (l : list A) :
  Forall (builds_child parent wrap ctor) l ->
  forall w, exists items w',
    comprehension (fun a => let* m := ctor a in ret (name_of a, PRef m)) l w
    = (Ok items, w')
    /\ frame w w'
    /\ children_of w' parent wrap l items
    /\ Forall (fun kv => exists c, kv.2 = PRef c
                                   /\ length (heap w) <= c < length (heap w'))
              items.
Proof.
  induction 1 as [|a l Ha _ IH]; intros w.
  - exists [], w. split; [done|]. split; [apply frame_refl|].
    split; constructor.
  - destruct (Ha w) as (w1 & Hrun & Hf1 & Hlt & Hc).
    destruct (IH w1) as (items & w' & Hrest & Hf2 & Hch & Hrange).
    exists ((name_of a, PRef (length (heap w))) :: items), w'.
    split; [|split; [|split]].
    + cbn [comprehension]. unfold bind at 1. unfold bind at 1.
      rewrite Hrun. cbn iota beta. unfold ret at 1. unfold bind at 1.
      fold (comprehension
              (fun a => let* m := ctor a in ret (name_of a, PRef m))).
      now rewrite Hrest.
    + eapply frame_trans; eassumption.
    + constructor; [|exact Hch]. split; [done|].
      exists (length (heap w)). split; [done|].
      eapply (child_of_frame_except (length (heap w1))); try eassumption.
      * now apply frame_frame_except.
      * lia.
    + destruct Hf1 as (Hl1 & _). destruct Hf2 as (Hl2 & _).
      constructor.
      * exists (length (heap w)). cbn. split; [done|lia].
      * eapply Forall_impl; [exact Hrange|].
        intros kv (c & -> & Hr). exists c. split; [done|lia].
Qed.

(** *** Induction over nested groups *)

Lemma Group_ind_nested (P : Group.t -> Prop) :
  (forall name dimensions variables groups attributes,
     Forall P groups ->
     P (Group.mk name dimensions variables groups attributes)) ->
  forall g, P g.
Proof.
  intros Hstep. fix IH 1. intros [name dimensions variables groups attributes].
  apply Hstep. induction groups as [|g gs IHgs]; constructor.
  - apply IH.
  - exact IHgs.
Qed.

(** ** Constructing a group mimic *)

Lemma GroupMimic_init_unfold (self : objid) (g : Group.t)
    (parent_grp : pyval) :
  GroupMimic.__init__ self g parent_grp
  = (Nc4ComponentMimic.__init__ self [PGrp g] [("parent_grp", parent_grp)] ;;;
     let* dims :=
       comprehension
         (fun dim =>
            let* m := DimensionMimic.new [PDim dim]
                        [("parent_grp", PRef self)] in
            ret (name_of dim, PRef m))
         (Group.dimensions g) in
     setattr self "dimensions" (POrderedDict (OrderedDict.of_items dims)) ;;;
     let* vars :=
       comprehension
         (fun var =>
            let* m := VariableMimic.new [PVar var]
                        [("parent_grp", PRef self)] in
            ret (name_of var, PRef m))
         (Group.variables g) in
     setattr self "variables" (POrderedDict (OrderedDict.of_items vars)) ;;;
     let* grps :=
       comprehension
         (fun grp =>
            let* m := GroupMimic.new grp (PRef self) in
            ret (name_of grp, PRef m))
         (Group.groups g) in
     setattr self "groups" (POrderedDict (OrderedDict.of_items grps))).
Proof. destruct g. reflexivity. Qed.

Lemma children_of_frame_except {A} `{Named A} (self lo : objid)
    (w w' : world) (parent : pyval) (wrap : A -> pyval) (l : list A)
    (items : list (string * pyval)) :
  frame_except self w w' -> self < lo ->
  Forall (fun kv => exists c, kv.2 = PRef c /\ lo <= c < length (heap w))
         items ->
  children_of w parent wrap l items ->
  children_of w' parent wrap l items.
Proof.
  intros Hf Hlo Hrange Hch. unfold children_of in *.
  induction Hch as [|a kv l items (Hk & c & Hv & Hc) _ IH]; [constructor|].
  inversion Hrange as [|? ? (c' & Hv' & Hr) Hrest]; subst.
  constructor; [|now apply IH].
  split; [done|]. exists c. split; [done|].
  assert (c' = c) by congruence. subst c'.
  eapply child_of_frame_except; try eassumption; lia.
Qed.

(** The call returns, for every group and in every state: the recursion
    runs over the subgroups of the wrapped group, which is a finite tree.
    It creates its objects after the existing ones and changes none of
    them. *)
Lemma GroupMimic_new_spec (g : Group.t) :
  forall (parent : pyval) (w : world),
  exists w',
    GroupMimic.new g parent w = (Ok (length (heap w)), w')
    /\ frame w w'
    /\ length (heap w) < length (heap w')
    /\ group_built w' (length (heap w)) g parent.
Proof.
  induction g as [name dimensions variables groups attributes IH]
    using Group_ind_nested.
  intros parent w.
  set (g := Group.mk name dimensions variables groups attributes).
  set (self := length (heap w)).
  destruct (alloc_frame CGroupMimic w) as (Hf01 & Hl1 & Hnew).
  set (w1 := snd (alloc CGroupMimic w)) in *.
  assert (Hs1 : self < length (heap w1)) by (subst self; lia).
  (* the base initialiser *)
  destruct (Nc4ComponentMimic_init_fields self (PGrp g) parent w1 Hs1)
    as (Hf12 & Hl2 & Ht2 & Hc2).
  set (w2 := snd (setattr self "_parent_group_ncobj" parent
                    (snd (setattr self "ncobj" (PGrp g) w1)))) in *.
  (* the dimensions *)
  destruct (comprehension_builds (PRef self) PDim
              (fun dim => DimensionMimic.new [PDim dim]
                            [("parent_grp", PRef self)])
              dimensions
              ltac:(apply Forall_forall; intros d _;
                    apply (Nc4ComponentMimic_new_builds CDimensionMimic))
              w2)
    as (dims & w3 & Hrun3 & Hf23 & Hch3 & Hr3).
  set (w4 := snd (setattr self "dimensions"
                    (POrderedDict (OrderedDict.of_items dims)) w3)).
  (* the variables *)
  destruct (comprehension_builds (PRef self) PVar
              (fun var => VariableMimic.new [PVar var]
                            [("parent_grp", PRef self)])
              variables
              ltac:(apply Forall_forall; intros v _;
                    apply (Nc4ComponentMimic_new_builds CVariableMimic))
              w4)
    as (vars & w5 & Hrun5 & Hf45 & Hch5 & Hr5).
  set (w6 := snd (setattr self "variables"
                    (POrderedDict (OrderedDict.of_items vars)) w5)).
  (* the subgroups *)
  assert (Hsub : Forall (builds_child (PRef self) PGrp
                           (fun grp => GroupMimic.new grp (PRef self)))
                        groups).
  { eapply Forall_impl; [exact IH|]. intros grp Hgrp w0.
    destruct (Hgrp (PRef self) w0) as (w0' & Hrun & Hf & Hlt & _ & Hc & _).
    now exists w0'. }
  destruct (comprehension_builds (PRef self) PGrp
              (fun grp => GroupMimic.new grp (PRef self)) groups Hsub w6)
    as (grps & w7 & Hrun7 & Hf67 & Hch7 & Hr7).
  set (w8 := snd (setattr self "groups"
                    (POrderedDict (OrderedDict.of_items grps)) w7)).
  (* lengths along the way *)
  assert (Hl3 : length (heap w2) <= length (heap w3)) by apply Hf23.
  assert (Hl4 : length (heap w4) = length (heap w3))
    by apply setattr_length.
  assert (Hl5 : length (heap w4) <= length (heap w5)) by apply Hf45.
  assert (Hl6 : length (heap w6) = length (heap w5))
    by apply setattr_length.
  assert (Hl7 : length (heap w6) <= length (heap w7)) by apply Hf67.
  assert (Hl8 : length (heap w8) = length (heap w7))
    by apply setattr_length.
  (* every step leaves the objects other than [self] alone *)
  assert (F34 : frame_except self w3 w4) by apply setattr_frame_except.
  assert (F45 : frame_except self w4 w5) by now apply frame_frame_except.
  assert (F56 : frame_except self w5 w6) by apply setattr_frame_except.
  assert (F67 : frame_except self w6 w7) by now apply frame_frame_except.
  assert (F78 : frame_except self w7 w8) by apply setattr_frame_except.
  assert (F58 : frame_except self w5 w8)
    by (eapply frame_except_trans; [exact F56|];
        eapply frame_except_trans; eassumption).
  assert (F38 : frame_except self w3 w8)
    by (eapply frame_except_trans; [exact F34|];
        eapply frame_except_trans; eassumption).
  assert (F18 : frame_except self w1 w8).
  { eapply frame_except_trans; [exact Hf12|].
    eapply frame_except_trans; [apply frame_frame_except, Hf23|exact F38]. }
  exists w8. split; [|split; [|split]].
  - unfold GroupMimic.new, bind at 1.
    change (alloc CGroupMimic w) with (Ok self, w1). cbv beta iota.
    unfold bind at 1. rewrite GroupMimic_init_unfold.
    unfold bind at 1. rewrite Nc4ComponentMimic_init_run. fold w2.
    cbv beta iota. unfold bind at 1. fold g. cbn [Group.dimensions g].
    rewrite Hrun3. cbv beta iota. unfold bind at 1. rewrite setattr_run.
    fold w4. cbv beta iota. unfold bind at 1. cbn [Group.variables g].
    rewrite Hrun5. cbv beta iota. unfold bind at 1. rewrite setattr_run.
    fold w6. cbv beta iota. unfold bind at 1. cbn [Group.groups g].
    rewrite Hrun7. cbv beta iota. rewrite setattr_run. fold w8.
    reflexivity.
  - destruct Hf01 as (A1 & A2 & A3 & A4). destruct F18 as (B1 & B2 & B3 & B4).
    split; [lia|]. split; [|split; congruence].
    intros o Ho. rewrite B2 by (subst self; lia). now apply A2.
  - lia.
  - assert (Hself : forall name v,
               name ≠ "dimensions" -> name ≠ "variables" ->
               name ≠ "groups" ->
               dict_get w2 self name = Some v ->
               dict_get w8 self name = Some v).
    { intros n v N1 N2 N3 Hv. unfold w8.
      rewrite setattr_dict_get_ne by (right; congruence).
      rewrite (frame_dict_get w6 w7) by (auto; lia). unfold w6.
      rewrite setattr_dict_get_ne by (right; congruence).
      rewrite (frame_dict_get w4 w5) by (auto; lia). unfold w4.
      rewrite setattr_dict_get_ne by (right; congruence).
      rewrite (frame_dict_get w2 w3) by (auto; lia). exact Hv. }
    split; [|split].
    + unfold w8. rewrite setattr_type_of.
      rewrite (frame_type_of w6 w7) by (auto; lia). unfold w6.
      rewrite setattr_type_of.
      rewrite (frame_type_of w4 w5) by (auto; lia). unfold w4.
      rewrite setattr_type_of.
      rewrite (frame_type_of w2 w3) by (auto; lia).
      rewrite Ht2. unfold type_of, self. now rewrite Hnew.
    + destruct Hc2 as [Hp Hn]. split; apply Hself; done.
    + exists dims, vars, grps. split; [|split; [|split; [|split; [|split]]]].
      * unfold w8. rewrite setattr_dict_get_ne by (right; discriminate).
        rewrite (frame_dict_get w6 w7) by (auto; lia). unfold w6.
        rewrite setattr_dict_get_ne by (right; discriminate).
        rewrite (frame_dict_get w4 w5) by (auto; lia).
        apply setattr_dict_get_eq. lia.
      * unfold w8. rewrite setattr_dict_get_ne by (right; discriminate).
        rewrite (frame_dict_get w6 w7) by (auto; lia).
        apply setattr_dict_get_eq. lia.
      * apply setattr_dict_get_eq. lia.
      * eapply (children_of_frame_except self (length (heap w2)));
          [exact F38|lia|exact Hr3|exact Hch3].
      * eapply (children_of_frame_except self (length (heap w4)));
          [exact F58|lia|exact Hr5|exact Hch5].
      * eapply (children_of_frame_except self (length (heap w6)));
          [exact F78|lia|exact Hr7|exact Hch7].
Qed.

(** ** Ordered mappings *)

Lemma setitem_keys (d : OrderedDict.t) (k : string) (v : pyval) :
  OrderedDict.keys (OrderedDict.setitem d k v)
  = if bool_decide (k ∈ OrderedDict.keys d) then OrderedDict.keys d
    else OrderedDict.keys d ++ [k].
Proof.
  unfold OrderedDict.keys.
  induction d as [|[k' v'] d IH]; cbn [OrderedDict.setitem map fst app].
  - rewrite bool_decide_eq_false_2; [done|]. intros Hin. inversion Hin.
  - destruct (decide (k' = k)) as [->|E].
    + rewrite bool_decide_eq_true_2 by done. cbn [map fst].
      rewrite bool_decide_eq_true_2; [done|left].
    + rewrite bool_decide_eq_false_2 by done. cbn [map fst]. rewrite IH.
      destruct (decide (k ∈ map fst d)) as [E1|E1].
      * rewrite !bool_decide_eq_true_2; [done|now right|done].
      * rewrite !bool_decide_eq_false_2; [done| |done].
        intros Hin. apply elem_of_cons in Hin as [Hin|Hin]; congruence.
Qed.

Lemma setitem_elem (d : OrderedDict.t) (k : string) (v : pyval)
    (kv : string * pyval) :
  kv ∈ OrderedDict.setitem d k v -> kv ∈ d \/ kv = (k, v).
Proof.
  induction d as [|[k' v'] d IH]; cbn [OrderedDict.setitem].
  - intros Hin. apply elem_of_cons in Hin as [->|Hin]; [now right|].
    inversion Hin.
  - case_bool_decide as E; intros Hin;
      apply elem_of_cons in Hin as [->|Hin].
    + now right.
    + left. now right.
    + left. left.
    + destruct (IH Hin) as [H1|H1]; [left; now right|now right].
Qed.

Lemma fold_setitem_keys (items : list (string * pyval)) (d : OrderedDict.t) :
  NoDup (OrderedDict.keys d ++ map fst items) ->
  OrderedDict.keys
    (fold_left (fun d kv => OrderedDict.setitem d kv.1 kv.2) items d)
  = OrderedDict.keys d ++ map fst items.
Proof.
  revert d. induction items as [|[k v] items IH]; intros d Hnd;
    cbn [fold_left map fst snd].
  - now rewrite app_nil_r.
  - assert (Hk : k ∉ OrderedDict.keys d).
    { apply NoDup_app in Hnd as (_ & Hdis & _). intros Hin.
      apply (Hdis k Hin). left. }
    assert (Hkeys : OrderedDict.keys (OrderedDict.setitem d k v)
                    = OrderedDict.keys d ++ [k])
      by (rewrite setitem_keys; now rewrite bool_decide_eq_false_2).
    rewrite IH; rewrite Hkeys, <- app_assoc; [done|exact Hnd].
Qed.

Lemma fold_setitem_elem (items : list (string * pyval)) (d : OrderedDict.t)
    (kv : string * pyval) :
  kv ∈ fold_left (fun d kv => OrderedDict.setitem d kv.1 kv.2) items d ->
  kv ∈ d \/ kv ∈ items.
Proof.
  revert d. induction items as [|[k v] items IH]; intros d;
    cbn [fold_left fst snd].
  - now left.
  - intros Hin. destruct (IH _ Hin) as [H1|H1]; [|right; now right].
    destruct (setitem_elem _ _ _ _ H1) as [H2| ->]; [now left|right; left].
Qed.

(** A key given twice keeps its first position and its last value. *)
Example of_items_repeated_key :
  OrderedDict.of_items [("a", PInt 1); ("b", PInt 2); ("a", PInt 3)]
  = [("a", PInt 3); ("b", PInt 2)].
Proof. reflexivity. Qed.

(** The keys of a mapping built from pairs with distinct keys are the keys
    of the pairs, in their order. *)
Lemma of_items_keys (items : list (string * pyval)) :
  NoDup (map fst items) ->
  OrderedDict.keys (OrderedDict.of_items items) = map fst items.
Proof. intros Hnd. unfold OrderedDict.of_items. now rewrite fold_setitem_keys. Qed.

(** Every entry of the mapping is one of the pairs it was built from. *)
Lemma of_items_elem (items : list (string * pyval)) (kv : string * pyval) :
  kv ∈ OrderedDict.of_items items -> kv ∈ items.
Proof.
  intros Hin. destruct (fold_setitem_elem _ _ _ Hin) as [H1|H1]; [|done].
  inversion H1.
Qed.

(** Distinct or not, the mapping has exactly the keys of its pairs. *)
Lemma of_items_key_set (items : list (string * pyval)) (k : string) :
  k ∈ OrderedDict.keys (OrderedDict.of_items items) <-> k ∈ map fst items.
Proof.
  unfold OrderedDict.of_items.
  assert (Hgen : forall d,
             k ∈ OrderedDict.keys
                   (fold_left (fun d kv => OrderedDict.setitem d kv.1 kv.2)
                              items d)
             <-> k ∈ OrderedDict.keys d \/ k ∈ map fst items).
  { induction items as [|[k' v'] items IH]; intros d;
      cbn [fold_left map fst snd].
    - split; [now left|]. intros [H1|H1]; [done|inversion H1].
    - rewrite IH, setitem_keys. case_bool_decide as E.
      + rewrite elem_of_cons. split; [tauto|].
        intros [H1|[->|H1]]; tauto.
      + rewrite elem_of_app, list_elem_of_singleton, elem_of_cons. tauto. }
  rewrite Hgen. split; [|now right]. intros [H1|H1]; [inversion H1|done].
Qed.

Lemma children_of_names {A} `{Named A} (w : world) (parent : pyval)
    (wrap : A -> pyval) (l : list A) (items : list (string * pyval)) :
  children_of w parent wrap l items -> map fst items = Container.names l.
Proof.
  unfold children_of, Container.names.
  induction 1 as [|a kv l items (Hk & _) _ IH]; [done|].
  cbn [map]. now rewrite Hk, IH.
Qed.

Lemma children_of_elem {A} `{Named A} (w : world) (parent : pyval)
    (wrap : A -> pyval) (l : list A) (items : list (string * pyval))
    (kv : string * pyval) :
  children_of w parent wrap l items -> kv ∈ items ->
  exists c a, kv.2 = PRef c /\ a ∈ l /\ name_of a = kv.1
              /\ child_of w parent (wrap a) c.
Proof.
  unfold children_of.
  induction 1 as [|a kv' l items (Hk & c & Hv & Hc) _ IH]; intros Hin.
  - inversion Hin.
  - apply elem_of_cons in Hin as [->|Hin].
    + exists c, a. split; [done|]. split; [left|]. split; [done|exact Hc].
    + destruct (IH Hin) as (c' & a' & ? & ? & ? & ?).
      exists c', a'. split; [done|]. split; [now right|]. split; done.
Qed.

Lemma children_mirror {A} `{Named A} (w : world) (self : objid)
    (wrap : A -> pyval) (l : list A) (items : list (string * pyval)) :
  children_of w (PRef self) wrap l items ->
  NoDup (Container.names l) ->
  mirrors w self wrap l (OrderedDict.of_items items).
Proof.
  intros Hch Hnd. pose proof (children_of_names _ _ _ _ _ Hch) as Hnames.
  split.
  - rewrite of_items_keys; [done|]. now rewrite Hnames.
  - intros k v Hin. apply of_items_elem in Hin.
    destruct (children_of_elem _ _ _ _ _ _ Hch Hin)
      as (c & a & Hv & Ha & Hk & Hp & Hn).
    exists c, a. cbn [fst snd] in *. repeat (split; [done|]).
    unfold Nc4ComponentMimic.group. now apply instance_attr_dict.
Qed.

(** X13: distinct names or not, each mapping has exactly the names of its
    collection as keys, and every value is a mimic whose [group()] is the
    new object. *)
Lemma GroupMimic_key_sets (g : Group.t) (parent : pyval) (w : world) :
  exists self w' dims vars grps,
    GroupMimic.new g parent w = (Ok self, w')
    /\ dict_get w' self "dimensions" = Some (POrderedDict dims)
    /\ dict_get w' self "variables" = Some (POrderedDict vars)
    /\ dict_get w' self "groups" = Some (POrderedDict grps)
    /\ (forall k, k ∈ OrderedDict.keys dims
                  <-> k ∈ Container.names (Group.dimensions g))
    /\ (forall k, k ∈ OrderedDict.keys vars
                  <-> k ∈ Container.names (Group.variables g))
    /\ (forall k, k ∈ OrderedDict.keys grps
                  <-> k ∈ Container.names (Group.groups g))
    /\ (forall kv, kv ∈ dims ++ vars ++ grps ->
          exists c, kv.2 = PRef c
                    /\ Nc4ComponentMimic.group c w' = (Ok (PRef self), w')).
Proof.
  destruct (GroupMimic_new_spec g parent w)
    as (w' & Hrun & _ & _ & _ & _ & dims & vars & grps
        & Hd & Hv & Hg & Cd & Cv & Cg).
  exists (length (heap w)), w', (OrderedDict.of_items dims),
    (OrderedDict.of_items vars), (OrderedDict.of_items grps).
  repeat (split; [done|]).
  split; [|split; [|split]].
  - intros k. rewrite of_items_key_set.
    now rewrite (children_of_names _ _ _ _ _ Cd).
  - intros k. rewrite of_items_key_set.
    now rewrite (children_of_names _ _ _ _ _ Cv).
  - intros k. rewrite of_items_key_set.
    now rewrite (children_of_names _ _ _ _ _ Cg).
  - intros kv Hin. rewrite !elem_of_app in Hin.
    destruct Hin as [Hin|[Hin|Hin]]; apply of_items_elem in Hin.
    + destruct (children_of_elem _ _ _ _ _ _ Cd Hin)
        as (c & a & Hc & _ & _ & Hp & _).
      exists c. split; [done|]. now apply instance_attr_dict.
    + destruct (children_of_elem _ _ _ _ _ _ Cv Hin)
        as (c & a & Hc & _ & _ & Hp & _).
      exists c. split; [done|]. now apply instance_attr_dict.
    + destruct (children_of_elem _ _ _ _ _ _ Cg Hin)
        as (c & a & Hc & _ & _ & Hp & _).
      exists c. split; [done|]. now apply instance_attr_dict.
Qed.

(** C3: [GroupMimic(g, parent_grp=parent)] returns an object whose
    [dimensions], [variables] and [groups] are ordered mappings; when the
    names in each wrapped collection are distinct, the keys of each mapping
    are the names of that collection in its order, and every value is a
    mimic of the element of that name whose [group()] is the new object. *)
Theorem GroupMimic_mappings (g : Group.t) (parent : pyval) (w : world) :
  NoDup (Container.names (Group.dimensions g)) ->
  NoDup (Container.names (Group.variables g)) ->
  NoDup (Container.names (Group.groups g)) ->
  exists self w' dims vars grps,
    GroupMimic.new g parent w = (Ok self, w')
    /\ dict_get w' self "dimensions" = Some (POrderedDict dims)
    /\ dict_get w' self "variables" = Some (POrderedDict vars)
    /\ dict_get w' self "groups" = Some (POrderedDict grps)
    /\ mirrors w' self PDim (Group.dimensions g) dims
    /\ mirrors w' self PVar (Group.variables g) vars
    /\ mirrors w' self PGrp (Group.groups g) grps.
Proof.
  intros Nd Nv Ng.
  destruct (GroupMimic_new_spec g parent w)
    as (w' & Hrun & _ & _ & _ & _ & dims & vars & grps
        & Hd & Hv & Hg & Cd & Cv & Cg).
  exists (length (heap w)), w', (OrderedDict.of_items dims),
    (OrderedDict.of_items vars), (OrderedDict.of_items grps).
  repeat (split; [done|]).
  split; [|split]; now apply children_mirror.
Qed.

Lemma GroupMimic_mappings_witness :
  exists self w' dims vars grps,
    GroupMimic.new Sample.grp_root PNone initial_world = (Ok self, w')
    /\ dict_get w' self "dimensions" = Some (POrderedDict dims)
    /\ dict_get w' self "variables" = Some (POrderedDict vars)
    /\ dict_get w' self "groups" = Some (POrderedDict grps)
    /\ mirrors w' self PDim (Group.dimensions Sample.grp_root) dims
    /\ mirrors w' self PVar (Group.variables Sample.grp_root) vars
    /\ mirrors w' self PGrp (Group.groups Sample.grp_root) grps.
Proof.
  apply GroupMimic_mappings;
    apply (bool_decide_unpack _); vm_compute; exact I.
Defined.

(** The mappings of the sample group, as computed. *)
Example GroupMimic_mappings_sample :
  dict_get Sample.world_group 0 "dimensions"
  = Some (POrderedDict [("x", PRef 1); ("time", PRef 2)])
  /\ dict_get Sample.world_group 0 "variables"
     = Some (POrderedDict [("temp", PRef 3); ("height", PRef 4)])
  /\ dict_get Sample.world_group 0 "groups"
     = Some (POrderedDict [("inner", PRef 5)])
  /\ dict_get Sample.world_group 5 "_parent_group_ncobj" = Some (PRef 0).
Proof. vm_compute. auto. Qed.

(** ** Missing attributes *)

(** C6: construction of a variable mimic or a group mimic succeeds
    whatever the attributes of the wrapped node are; for a name that is not
    in the attribute collection, [getncattr] raises [AttributeError] when it
    is called, and the state stays as it was.  A read of any name that
    neither the class nor the instance has is the call of [getncattr] with
    that name: it returns the value of the attribute of that name when the
    node has one, and raises [AttributeError] when it has none. *)
Theorem getncattr_absent (w : world) (self : objid) (c : cls) (nco : pyval)
    (attrs : list Attribute.t) :
  type_of w self = Some c ->
  has_getattr_hook c = true ->
  dict_get w self "ncobj" = Some nco ->
  ncobj_attributes nco = Ok attrs ->
  (forall v parent w0, exists w1,
      VariableMimic.new [PVar v] [("parent_grp", parent)] w0
      = (Ok (length (heap w0)), w1))
  /\ (forall g parent w0, exists w1,
        GroupMimic.new g parent w0 = (Ok (length (heap w0)), w1))
  /\ (forall name, name ∉ Container.names attrs ->
        Nc4ComponentAttrsMimic.getncattr self name w
        = (Raise AttributeError, w))
  /\ (forall name, name ∉ class_namespace c -> dict_get w self name = None ->
        py_getattr self name w = Nc4ComponentAttrsMimic.getncattr self name w
        /\ (forall a, Container.getitem attrs name = Some a ->
              py_getattr self name w = (Ok (PAtom (Attribute.value a)), w))
        /\ (name ∉ Container.names attrs ->
              py_getattr self name w = (Raise AttributeError, w))).
Proof.
  intros Ht Hk Hn Ha.
  split; [|split; [|split]].
  - intros v parent w0.
    destruct (Nc4ComponentMimic_new_builds CVariableMimic parent PVar v w0)
      as (w1 & Hrun & _). now exists w1.
  - intros g parent w0.
    destruct (GroupMimic_new_spec g parent w0) as (w1 & Hrun & _).
    now exists w1.
  - intros name Hout.
    exact (getncattr_absent_raises w self nco attrs name Hn Ha Hout).
  - intros name Hc Hd.
    assert (Hfall : py_getattr self name w
                    = Nc4ComponentAttrsMimic.getncattr self name w).
    { rewrite (py_getattr_unknown _ _ _ _ Ht Hc Hd).
      unfold getattr_hook. now rewrite Hk. }
    split; [exact Hfall|]. rewrite Hfall. split.
    + intros a Hg. exact (getncattr_found w self nco attrs name a Hn Ha Hg).
    + intros Hout.
      exact (getncattr_absent_raises w self nco attrs name Hn Ha Hout).
Qed.

Lemma getncattr_absent_witness :
  Nc4ComponentAttrsMimic.getncattr 3 "long_name" Sample.world_group
  = (Raise AttributeError, Sample.world_group)
  /\ py_getattr 3 "long_name" Sample.world_group
     = (Raise AttributeError, Sample.world_group)
  /\ py_getattr 3 "units" Sample.world_group
     = (Ok (PStr "K"), Sample.world_group).
Proof.
  assert (Ht : type_of Sample.world_group 3 = Some CVariableMimic)
    by (vm_compute; reflexivity).
  assert (Hn : dict_get Sample.world_group 3 "ncobj"
               = Some (PVar Sample.var_temp)) by (vm_compute; reflexivity).
  assert (Hout : "long_name"
                 ∉ Container.names (NcVariable.attributes Sample.var_temp))
    by (apply (proj1 (bool_decide_eq_false _)); vm_compute; reflexivity).
  destruct (getncattr_absent Sample.world_group 3 CVariableMimic
              (PVar Sample.var_temp) _ Ht eq_refl Hn eq_refl)
    as (_ & _ & Hraise & Hread).
  split; [exact (Hraise "long_name" Hout)|]. split.
  - apply (Hread "long_name"); [| |exact Hout].
    + apply (proj1 (bool_decide_eq_false _)). vm_compute. reflexivity.
    + vm_compute. reflexivity.
  - apply (proj1 (proj2 (Hread "units"
             ltac:(apply (proj1 (bool_decide_eq_false _)); vm_compute;
                   reflexivity)
             ltac:(vm_compute; reflexivity)))
             (Attribute.mk "units" (AStr "K"))).
    reflexivity.
Defined.

(** A name the wrapped node does have is served by the same fallback. *)
Example unknown_property_reads_attribute :
  fst (py_getattr 3 "units" Sample.world_group) = Ok (PStr "K")
  /\ fst (py_getattr 0 "history" Sample.world_group)
     = Ok (PStr "made in memory").
Proof. vm_compute. auto. Qed.

(** ** A dataset mimic built by a direct call *)

(** The direct call [Nc4DatasetMimic(file_path, file_mode, nco)] does
    return: the new object has the two fields of the base initialiser and
    the two of its own, and no other. *)
Lemma Nc4DatasetMimic_new_direct (file_path file_mode nco : pyval)
    (w : world) :
  Nc4DatasetMimic.new [file_path; file_mode; nco] [] w
  = (Ok (length (heap w)),
     set_heap
       (heap w ++
        [mkobj CNc4DatasetMimic
           (<["_file_mode" := file_mode]>
              (<["_filepath" := file_path]>
                 (<["_parent_group_ncobj" := PNone]>
                    (<["ncobj" := nco]> ∅))))])
       w).
Proof.
  unfold Nc4DatasetMimic.new, Nc4DatasetMimic.__init__,
    Nc4ComponentMimic.__init__, bind, alloc, setattr, set_heap, lift, ret.
  cbn -[alter insert].
  now rewrite !alter_new_object.
Qed.

Lemma direct_dataset_lookup (file_path file_mode nco : pyval) (w : world) :
  let out := Nc4DatasetMimic.new [file_path; file_mode; nco] [] w in
  heap (snd out) !! length (heap w)
  = Some (mkobj CNc4DatasetMimic
            (<["_file_mode" := file_mode]>
               (<["_filepath" := file_path]>
                  (<["_parent_group_ncobj" := PNone]>
                     (<["ncobj" := nco]> ∅)))))
  /\ globals (snd out) = globals w
  /\ trace (snd out) = trace w.
Proof.
  cbn zeta. rewrite Nc4DatasetMimic_new_direct.
  cbn [snd set_heap heap globals trace]. split; [|done].
  rewrite lookup_app_r by lia. now rewrite Nat.sub_diag.
Qed.

(** Such a mimic has none of the three mappings: the initialiser of
    [GroupMimic] is skipped, and a read of [dimensions], [variables] or
    [groups] falls through to the attributes of the wrapped group. *)
Lemma Nc4DatasetMimic_has_no_children (file_path file_mode : pyval)
    (g : Group.t) (w : world) (name : string) :
  name ∈ ["dimensions"; "variables"; "groups"] ->
  let out := Nc4DatasetMimic.new [file_path; file_mode; PGrp g] [] w in
  fst out = Ok (length (heap w))
  /\ length (heap (snd out)) = S (length (heap w))
  /\ dict_get (snd out) (length (heap w)) name = None
  /\ py_getattr (length (heap w)) name (snd out)
     = Nc4ComponentAttrsMimic.getncattr (length (heap w)) name (snd out).
Proof.
  intros Hname out.
  destruct (direct_dataset_lookup file_path file_mode (PGrp g) w)
    as (Hobj & _). fold out in Hobj.
  assert (Hd : dict_get (snd out) (length (heap w)) name = None).
  { unfold dict_get. rewrite Hobj. cbn [ob_dict].
    repeat (apply elem_of_cons in Hname as [->|Hname]); [done..|].
    inversion Hname. }
  split; [|split; [|split; [exact Hd|]]].
  - subst out. now rewrite Nc4DatasetMimic_new_direct.
  - subst out. rewrite Nc4DatasetMimic_new_direct.
    cbn [snd set_heap heap]. rewrite length_app. cbn [length]. lia.
  - rewrite (py_getattr_unknown _ _ CNc4DatasetMimic); [done| | |exact Hd].
    + unfold type_of. now rewrite Hobj.
    + repeat (apply elem_of_cons in Hname as [->|Hname]);
        [apply (proj1 (bool_decide_eq_false _)); vm_compute; reflexivity..|].
      inversion Hname.
Qed.

(** X7: in write mode such a mimic cannot be closed, in any state where
    the module has no global [kwargs]: [close] raises before the file layer
    is reached and leaves the state as it is. *)
Lemma direct_dataset_close_raises `{Externals} (file_path : pyval)
    (mode : string) (g : Group.t) (w : world) :
  str_contains "w" mode = true ->
  globals w !! "kwargs" = None ->
  let out := Nc4DatasetMimic.new [file_path; PStr mode; PGrp g] [] w in
  exists e,
    Nc4DatasetMimic.close (length (heap w)) (snd out) = (Raise e, snd out)
    /\ (e = AttributeError \/ e = NameError "kwargs").
Proof.
  intros Hm Hk out.
  destruct (direct_dataset_lookup file_path (PStr mode) (PGrp g) w)
    as (Hobj & Hg & _). fold out in Hobj, Hg.
  eexists. split.
  - apply (close_write_mode_raises _ _ mode g);
      first [ exact Hm
            | unfold type_of, dict_get; now rewrite Hobj
            | now rewrite Hg ].
  - destruct (Container.getitem (Group.attributes g) "file_path");
      [|now left].
    destruct (Container.getitem (Group.attributes g) "file_mode");
      [now right|now left].
Qed.

(** * Further properties of the module *)

(** ** Properties, attributes and names *)

Lemma py_getattr_property (w : world) (self : objid) (c : cls)
    (name : string) (getter : objid -> M pyval) (v : pyval) :
  type_of w self = Some c ->
  find_property c name = Some getter ->
  getter self w = (Ok v, w) ->
  py_getattr self name w = (Ok v, w).
Proof.
  unfold type_of, py_getattr.
  destruct (heap w !! self) as [[c' d]|]; [|discriminate].
  cbn [fmap option_fmap option_map ob_type]. intros [= ->] -> Hrun.
  unfold with_hook. now rewrite Hrun.
Qed.

(** X1: every entry of the three mappings of a freshly built group mimic
    answers to its key: the value is a mimic whose [name] is the key under
    which it is stored. *)
Theorem mapping_key_is_name (g : Group.t) (parent : pyval) (w : world) :
  exists self w' dims vars grps,
    GroupMimic.new g parent w = (Ok self, w')
    /\ dict_get w' self "dimensions" = Some (POrderedDict dims)
    /\ dict_get w' self "variables" = Some (POrderedDict vars)
    /\ dict_get w' self "groups" = Some (POrderedDict grps)
    /\ forall k v, (k, v) ∈ dims ++ vars ++ grps ->
         exists c, v = PRef c
                   /\ py_getattr c "name" w' = (Ok (PStr k), w').
Proof.
  destruct (GroupMimic_new_spec g parent w)
    as (w' & Hrun & _ & _ & _ & _ & dims & vars & grps
        & Hd & Hv & Hg & Cd & Cv & Cg).
  exists (length (heap w)), w', (OrderedDict.of_items dims),
    (OrderedDict.of_items vars), (OrderedDict.of_items grps).
  repeat (split; [done|]).
  assert (Hname : forall c nco k,
             dict_get w' c "ncobj" = Some nco ->
             ncobj_name nco = Ok (PStr k) ->
             py_getattr c "name" w' = (Ok (PStr k), w')).
  { intros c nco k Hn Hk. unfold dict_get in Hn.
    destruct (heap w' !! c) as [[cl d]|] eqn:Hh; [|discriminate].
    apply (py_getattr_property _ _ cl _ Nc4ComponentMimic.name).
    - unfold type_of. now rewrite Hh.
    - now destruct cl.
    - unfold Nc4ComponentMimic.name, bind.
      rewrite (self_ncobj_ok w' c nco) by (unfold dict_get; now rewrite Hh).
      unfold lift. now rewrite Hk. }
  intros k v Hin. rewrite !elem_of_app in Hin.
  destruct Hin as [Hin|[Hin|Hin]]; apply of_items_elem in Hin.
  - destruct (children_of_elem _ _ _ _ _ _ Cd Hin)
      as (c & a & Hc & _ & Hk & _ & Hn).
    exists c. split; [done|]. apply (Hname c (PDim a)); [done|].
    cbn in *. now rewrite <- Hk.
  - destruct (children_of_elem _ _ _ _ _ _ Cv Hin)
      as (c & a & Hc & _ & Hk & _ & Hn).
    exists c. split; [done|]. apply (Hname c (PVar a)); [done|].
    cbn in *. now rewrite <- Hk.
  - destruct (children_of_elem _ _ _ _ _ _ Cg Hin)
      as (c & a & Hc & _ & Hk & _ & Hn).
    exists c. split; [done|]. apply (Hname c (PGrp a)); [done|].
    cbn in *. now rewrite <- Hk.
Qed.

(** X2: the reads [name], [dtype], [datatype], [shape], [ndim], [size] and
    [dimensions] of a variable mimic.  When the wrapped node is a variable
    with its data array, they come from the variable and the array, and an
    attribute of the same name plays no part; the dimension names are those
    of the references, in order.  When the wrapped node has no data array,
    so that the getter ends in an [AttributeError], the reads [dtype],
    [shape], [ndim] and [size] are answered by [getncattr] with that name
    instead: by the attribute of that name, if there is one.  [datatype]
    then is what [getncattr('dtype')] gives, and what
    [getncattr('datatype')] gives when that raises [AttributeError]. *)
Theorem VariableMimic_properties (w : world) (self : objid) (nco : pyval) :
  type_of w self = Some CVariableMimic ->
  dict_get w self "ncobj" = Some nco ->
  (forall v, nco = PVar v ->
     let data := NcVariable.data v in
     py_getattr self "name" w = (Ok (PStr (NcVariable.name v)), w)
     /\ py_getattr self "dtype" w = (Ok (PStr (Array.dtype data)), w)
     /\ py_getattr self "datatype" w = (Ok (PStr (Array.dtype data)), w)
     /\ py_getattr self "shape" w
        = (Ok (PTuple (map (fun z => PInt z) (Array.shape data))), w)
     /\ py_getattr self "ndim" w = (Ok (PInt (Array.ndim data)), w)
     /\ py_getattr self "size" w = (Ok (PInt (Array.size data)), w)
     /\ py_getattr self "dimensions" w
        = (Ok (PTuple (map (fun r => PStr (dimref_name r))
                           (NcVariable.dimensions v))), w))
  /\ (ncobj_data nco = Raise AttributeError ->
      (forall name, name ∈ ["dtype"; "shape"; "ndim"; "size"] ->
         py_getattr self name w
         = Nc4ComponentAttrsMimic.getncattr self name w)
      /\ py_getattr self "datatype" w
         = match Nc4ComponentAttrsMimic.getncattr self "dtype" w with
           | (Raise AttributeError, _) =>
               Nc4ComponentAttrsMimic.getncattr self "datatype" w
           | r => r
           end).
Proof.
  intros Ht Hn. split.
  - intros v -> data.
    assert (Hdt : VariableMimic.dtype self w
                  = (Ok (PStr (Array.dtype data)), w)).
    { unfold VariableMimic.dtype, bind. now rewrite (self_ncobj_ok _ _ _ Hn). }
    repeat split.
    + apply (py_getattr_property _ _ _ "name" Nc4ComponentMimic.name _ Ht eq_refl).
      unfold Nc4ComponentMimic.name, bind. now rewrite (self_ncobj_ok _ _ _ Hn).
    + now apply (py_getattr_property _ _ _ "dtype" VariableMimic.dtype _ Ht eq_refl).
    + apply (py_getattr_property _ _ _ "datatype" VariableMimic.datatype _ Ht eq_refl).
      unfold VariableMimic.datatype, with_hook. now rewrite Hdt.
    + apply (py_getattr_property _ _ _ "shape" VariableMimic.shape _ Ht eq_refl).
      unfold VariableMimic.shape, bind. now rewrite (self_ncobj_ok _ _ _ Hn).
    + apply (py_getattr_property _ _ _ "ndim" VariableMimic.ndim _ Ht eq_refl).
      unfold VariableMimic.ndim, bind. now rewrite (self_ncobj_ok _ _ _ Hn).
    + apply (py_getattr_property _ _ _ "size" VariableMimic.size _ Ht eq_refl).
      unfold VariableMimic.size, bind. now rewrite (self_ncobj_ok _ _ _ Hn).
    + apply (py_getattr_property _ _ _ "dimensions" VariableMimic.dimensions _ Ht eq_refl).
      unfold VariableMimic.dimensions, bind.
      rewrite (self_ncobj_ok _ _ _ Hn).
      cbn [lift ncobj_dimension_names]. rewrite map_map. unfold ret.
      do 3 f_equal. apply map_ext. now intros [d|s].
  - intros Hdata.
    assert (Hget : forall name (getter : objid -> M pyval),
               find_property CVariableMimic name = Some getter ->
               py_getattr self name w = with_hook self name (getter self) w).
    { intros name getter Hf. revert Ht. unfold type_of, py_getattr.
      destruct (heap w !! self) as [[c d]|]; [|discriminate].
      cbn [fmap option_fmap option_map ob_type]. intros [= ->].
      now rewrite Hf. }
    assert (Hhook : forall name (getter : M pyval),
               getter w = (Raise AttributeError, w) ->
               with_hook self name getter w
               = Nc4ComponentAttrsMimic.getncattr self name w).
    { intros name getter Hr. unfold with_hook. rewrite Hr, Ht. reflexivity. }
    assert (Hdt : VariableMimic.dtype self w = (Raise AttributeError, w)).
    { unfold VariableMimic.dtype, bind. rewrite (self_ncobj_ok _ _ _ Hn).
      unfold lift. now rewrite Hdata. }
    split.
    + intros name Hin.
      rewrite !elem_of_cons in Hin.
      destruct Hin as [->|[->|[->|[->|Hin]]]]; [| | | |inversion Hin].
      * rewrite (Hget "dtype" VariableMimic.dtype eq_refl).
        now apply Hhook.
      * rewrite (Hget "shape" VariableMimic.shape eq_refl).
        apply Hhook. unfold VariableMimic.shape, bind.
        rewrite (self_ncobj_ok _ _ _ Hn). unfold lift. now rewrite Hdata.
      * rewrite (Hget "ndim" VariableMimic.ndim eq_refl).
        apply Hhook. unfold VariableMimic.ndim, bind.
        rewrite (self_ncobj_ok _ _ _ Hn). unfold lift. now rewrite Hdata.
      * rewrite (Hget "size" VariableMimic.size eq_refl).
        apply Hhook. unfold VariableMimic.size, bind.
        rewrite (self_ncobj_ok _ _ _ Hn). unfold lift. now rewrite Hdata.
    + rewrite (Hget "datatype" VariableMimic.datatype eq_refl).
      unfold VariableMimic.datatype. unfold with_hook at 1.
      rewrite (Hhook "dtype" (VariableMimic.dtype self) Hdt).
      destruct (pure_run _ w (pure_getncattr self "dtype")) as [r Hr].
      rewrite Hr. destruct r as [v|e]; [done|]. destruct e; try done.
      rewrite Ht. reflexivity.
Qed.

Lemma VariableMimic_properties_witness :
  (py_getattr 3 "shape" Sample.world_group
   = (Ok (PTuple [PInt 3]), Sample.world_group)
   /\ py_getattr 3 "dimensions" Sample.world_group
      = (Ok (PTuple [PStr "x"]), Sample.world_group))
  /\ py_getattr 0 "shape" Sample.world_variable_without_data
     = Nc4ComponentAttrsMimic.getncattr 0 "shape"
         Sample.world_variable_without_data.
Proof.
  assert (Ht : type_of Sample.world_group 3 = Some CVariableMimic)
    by (vm_compute; reflexivity).
  assert (Hn : dict_get Sample.world_group 3 "ncobj"
               = Some (PVar Sample.var_temp)) by (vm_compute; reflexivity).
  assert (Ht' : type_of Sample.world_variable_without_data 0
                = Some CVariableMimic) by (vm_compute; reflexivity).
  assert (Hn' : dict_get Sample.world_variable_without_data 0 "ncobj"
                = Some (PGrp Sample.node_without_data))
    by (vm_compute; reflexivity).
  split.
  - destruct (proj1 (VariableMimic_properties _ _ _ Ht Hn) _ eq_refl)
      as (_ & _ & _ & Hs & _ & _ & Hd).
    split; [exact Hs | exact Hd].
  - apply (proj1 (proj2 (VariableMimic_properties _ _ _ Ht' Hn') eq_refl)).
    apply (bool_decide_unpack _). vm_compute. exact I.
Defined.

(** A variable mimic of a node without data answers [shape] with the
    node's attribute of that name, and [ndim] with an [AttributeError]. *)
Example VariableMimic_without_data_reads_attribute :
  fst (py_getattr 0 "shape" Sample.world_variable_without_data)
  = Ok (PStr "flat")
  /\ fst (py_getattr 0 "ndim" Sample.world_variable_without_data)
     = Raise AttributeError.
Proof. vm_compute. auto. Qed.

(** X3: [ncattrs()] lists the names of the attributes of the wrapped node
    in their order, and [getncattr(n)] returns a value exactly for the
    names in that list; both leave the state as it is. *)
Theorem ncattrs_getncattr_agree (w : world) (self : objid) (nco : pyval)
    (attrs : list Attribute.t) :
  dict_get w self "ncobj" = Some nco ->
  ncobj_attributes nco = Ok attrs ->
  Nc4ComponentAttrsMimic.ncattrs self w
  = (Ok (PList (map (fun a => PStr (Attribute.name a)) attrs)), w)
  /\ forall n,
       n ∈ map Attribute.name attrs
       <-> exists v, Nc4ComponentAttrsMimic.getncattr self n w = (Ok v, w).
Proof.
  intros Hn Ha. split.
  - unfold Nc4ComponentAttrsMimic.ncattrs, bind.
    rewrite (self_ncobj_ok _ _ _ Hn). unfold lift. now rewrite Ha.
  - intros n. split.
    + intros Hin.
      destruct (getitem_of_name attrs n Hin) as (a & Hg & _).
      exists (PAtom (Attribute.value a)).
      now apply (getncattr_found w self nco attrs).
    + intros [v Hv].
      destruct (decide (n ∈ map Attribute.name attrs)) as [Hin|Hout];
        [done|].
      rewrite (getncattr_absent_raises w self nco attrs n Hn Ha Hout) in Hv.
      discriminate.
Qed.

Lemma ncattrs_getncattr_agree_witness :
  Nc4ComponentAttrsMimic.ncattrs 0 Sample.world_group
  = (Ok (PList [PStr "history"]), Sample.world_group).
Proof.
  assert (Hn : dict_get Sample.world_group 0 "ncobj"
               = Some (PGrp Sample.grp_root)) by (vm_compute; reflexivity).
  exact (proj1 (ncattrs_getncattr_agree Sample.world_group 0
                  (PGrp Sample.grp_root) _ Hn eq_refl)).
Defined.

(** X4: a dimension mimic has no attribute fallback: a read of a name that
    is neither in its class (its own names, the inherited ones and those
    every object has) nor in its instance dictionary raises
    [AttributeError], without looking at the wrapped dimension. *)
Theorem DimensionMimic_unknown_name (w : world) (self : objid)
    (name : string) :
  type_of w self = Some CDimensionMimic ->
  name ∉ class_namespace CDimensionMimic ->
  dict_get w self name = None ->
  py_getattr self name w = (Raise AttributeError, w).
Proof.
  intros Ht Hn Hd. now rewrite (py_getattr_unknown _ _ _ _ Ht Hn Hd).
Qed.

Lemma DimensionMimic_unknown_name_witness :
  py_getattr 1 "units" Sample.world_group
  = (Raise AttributeError, Sample.world_group).
Proof.
  apply DimensionMimic_unknown_name.
  - vm_compute. reflexivity.
  - apply (proj1 (bool_decide_eq_false _)). vm_compute. reflexivity.
  - vm_compute. reflexivity.
Defined.

(** ** The constructor of the dataset mimic *)

Lemma kw_get_remove_None (kw : kwargs_t) (removed name : string) :
  kw_get kw name = None -> kw_get (kw_remove removed kw) name = None.
Proof.
  unfold kw_get, kw_remove, kwargs_t in *.
  induction kw as [|[k v] kw IH]; [done|].
  cbn [find fst]. case_bool_decide as E; [discriminate|].
  intros Hrest. rewrite filter_cons. cbn [fst].
  destruct (decide (k ≠ removed)); [|now apply IH].
  cbn [find fst]. rewrite bool_decide_eq_false_2 by done. now apply IH.
Qed.

Lemma bind_param_raises (pos : list pyval) (kw : kwargs_t) (i : nat)
    (name : string) (default : option pyval) (e : exn) :
  bind_param pos kw i name default = Raise e -> e = TypeError.
Proof.
  unfold bind_param.
  destruct (pos !! i), (kw_get kw name), default; congruence.
Qed.

(** X5: a call of [Nc4DatasetMimic] with at most two positional arguments
    and no keyword [nco_component] raises [TypeError], whatever the
    arguments are: the first two positions are taken by [file_path] and
    [file_mode], so nothing reaches the base initialiser.  Both factory
    functions call it this way. *)
Theorem Nc4DatasetMimic_needs_component (pos : list pyval) (kw : kwargs_t)
    (w : world) :
  length pos <= 2 ->
  kw_get kw "nco_component" = None ->
  fst (Nc4DatasetMimic.new pos kw w) = Raise TypeError.
Proof.
  intros Hlen Hkw.
  unfold Nc4DatasetMimic.new, Nc4DatasetMimic.__init__, bind at 1.
  cbn [alloc]. unfold bind at 1. unfold bind at 1. unfold lift at 1.
  destruct (bind_param pos kw 0 "file_path" (Some PNone)) as [fp|e] eqn:E1;
    [|now rewrite (bind_param_raises _ _ _ _ _ _ E1)].
  unfold bind at 1. unfold lift at 1.
  destruct (bind_param pos kw 1 "file_mode" (Some (PStr "r")))
    as [fm|e] eqn:E2;
    [|now rewrite (bind_param_raises _ _ _ _ _ _ E2)].
  rewrite drop_ge by done.
  unfold bind at 1. unfold Nc4ComponentMimic.__init__, bind at 1.
  unfold lift at 1, no_extra_args.
  destruct (_ && _); [|done].
  unfold bind at 1, lift at 1, bind_param. cbn [lookup list_lookup].
  rewrite (kw_get_remove_None _ "file_path" "nco_component")
    by (apply kw_get_remove_None; exact Hkw).
  reflexivity.
Qed.

Lemma Nc4DatasetMimic_needs_component_witness :
  fst (Nc4DatasetMimic.new [PStr "out.nc"] [("file_mode", PStr "w")]
         initial_world)
  = Raise TypeError.
Proof.
  apply Nc4DatasetMimic_needs_component; [cbn; lia | reflexivity].
Defined.

(** X6: the direct call [Nc4DatasetMimic(file_path, file_mode, g)] returns
    a new object that stores the path, the mode and the group, has no
    parent, and has none of the mappings [dimensions], [variables] and
    [groups]: nothing but this one object is created, and a read of one of
    the three names is answered by [getncattr], that is from the
    attributes of the group. *)
Theorem direct_dataset_fields (file_path file_mode : pyval) (g : Group.t)
    (w : world) :
  let self := length (heap w) in
  let out := Nc4DatasetMimic.new [file_path; file_mode; PGrp g] [] w in
  fst out = Ok self
  /\ length (heap (snd out)) = S (length (heap w))
  /\ dict_get (snd out) self "_filepath" = Some file_path
  /\ dict_get (snd out) self "_file_mode" = Some file_mode
  /\ dict_get (snd out) self "ncobj" = Some (PGrp g)
  /\ Nc4ComponentMimic.group self (snd out) = (Ok PNone, snd out)
  /\ forall name, name ∈ ["dimensions"; "variables"; "groups"] ->
       dict_get (snd out) self name = None
       /\ py_getattr self name (snd out)
          = Nc4ComponentAttrsMimic.getncattr self name (snd out).
Proof.
  intros self out.
  destruct (direct_dataset_lookup file_path file_mode (PGrp g) w)
    as (Hobj & _). fold out self in Hobj.
  assert (Hget : forall name v,
             (<["_file_mode" := file_mode]>
                (<["_filepath" := file_path]>
                   (<["_parent_group_ncobj" := PNone]>
                      (<["ncobj" := PGrp g]> (∅ : gmap string pyval)))))
               !! name = Some v ->
             dict_get (snd out) self name = Some v).
  { intros name v Hv. unfold dict_get. now rewrite Hobj. }
  split; [|split; [|split; [|split; [|split; [|split]]]]].
  - subst out. now rewrite Nc4DatasetMimic_new_direct.
  - subst out. rewrite Nc4DatasetMimic_new_direct.
    cbn [snd set_heap heap]. rewrite length_app. cbn [length]. lia.
  - apply Hget. now simplify_map_eq.
  - apply Hget. now simplify_map_eq.
  - apply Hget. now simplify_map_eq.
  - apply instance_attr_dict, Hget. now simplify_map_eq.
  - intros name Hname.
    destruct (Nc4DatasetMimic_has_no_children file_path file_mode g w name
                Hname) as (_ & _ & Hnone & Hread).
    split; [exact Hnone | exact Hread].
Qed.

Lemma direct_dataset_close_raises_witness :
  exists e,
    @Nc4DatasetMimic.close Sample.friendly 0
       (Sample.world_dataset "w" Sample.grp_inner)
    = (Raise e, Sample.world_dataset "w" Sample.grp_inner)
    /\ (e = AttributeError \/ e = NameError "kwargs").
Proof.
  apply (@direct_dataset_close_raises Sample.friendly (PStr "out.nc") "w"
           Sample.grp_inner initial_world).
  - vm_compute. reflexivity.
  - vm_compute. reflexivity.
Defined.

(** ** Closing once the names resolve *)

(** X8: what [close] does in write mode once its names resolve, that is
    when somebody has bound the global [kwargs] and the wrapped group has
    attributes called [file_path] and [file_mode].  The dataset is opened
    with the values of these two attributes, not with the path and mode
    given to the constructor; a failure of [nc.Dataset] comes out as it is
    and nothing was opened; otherwise the encoder runs once on the dataset
    and the wrapped group, its failure comes out as it is, and the dataset
    is closed in both cases. *)
Theorem close_uses_group_attributes `{Externals} (w : world) (self : objid)
    (mode : string) (g : Group.t) (a_path a_mode : Attribute.t)
    (kwargs : pyval) :
  type_of w self = Some CNc4DatasetMimic ->
  dict_get w self "_file_mode" = Some (PStr mode) ->
  str_contains "w" mode = true ->
  dict_get w self "ncobj" = Some (PGrp g) ->
  dict_get w self "file_path" = None ->
  dict_get w self "file_mode" = None ->
  Container.getitem (Group.attributes g) "file_path" = Some a_path ->
  Container.getitem (Group.attributes g) "file_mode" = Some a_mode ->
  globals w !! "kwargs" = Some kwargs ->
  let filename := PAtom (Attribute.value a_path) in
  let fmode := PAtom (Attribute.value a_mode) in
  let ds := length (trace w) in
  Nc4DatasetMimic.close self w
  = match nc_Dataset filename fmode kwargs (trace w) with
    | Some e => (Raise e, w)
    | None =>
        (match ncobj_write ds (PGrp g)
                 (trace w ++ [EvOpen filename fmode kwargs ds]) with
         | Some e => Raise e
         | None => Ok PNone
         end,
         mkworld (heap w) (globals w)
           (trace w ++ [EvOpen filename fmode kwargs ds;
                        EvWrite ds (PGrp g); EvClose ds]))
    end.
Proof.
  intros Ht Hm Hw Hn Hp Hfm Hap Ham Hk filename fmode ds.
  unfold Nc4DatasetMimic.close, bind.
  rewrite (file_mode_read _ _ _ Ht Hm). cbn [lift py_contains]. rewrite Hw.
  unfold with_dataset, bind.
  rewrite (dataset_attr_from_group w self g "file_path" Ht Hn Hp)
    by (apply (proj1 (bool_decide_eq_false _)); vm_compute; reflexivity).
  rewrite Hap.
  rewrite (dataset_attr_from_group w self g "file_mode" Ht Hn Hfm)
    by (apply (proj1 (bool_decide_eq_false _)); vm_compute; reflexivity).
  rewrite Ham. unfold load_global. rewrite Hk. unfold open_dataset.
  fold filename fmode.
  destruct (nc_Dataset filename fmode kwargs (trace w)) as [e|]; [done|].
  cbn [log snd]. fold ds. rewrite py_getattr_ncobj.
  rewrite (self_ncobj_ok _ self (PGrp g)) by exact Hn.
  unfold call_ncobj_write. cbn [log snd heap globals trace].
  destruct (ncobj_write ds (PGrp g)
              (trace w ++ [EvOpen filename fmode kwargs ds]));
    unfold ret; cbn [heap globals trace]; now rewrite <- !app_assoc.
Qed.

Lemma close_uses_group_attributes_witness :
  let w := Sample.world_patched "w" Sample.grp_with_paths in
  @Nc4DatasetMimic.close Sample.failing_encoder 0 w
  = (Raise (ExternalError 7),
     mkworld (heap w) (globals w)
       [EvOpen (PStr "attr.nc") (PStr "w") (POrderedDict []) 0;
        EvWrite 0 (PGrp Sample.grp_with_paths); EvClose 0]).
Proof.
  cbn zeta.
  apply (@close_uses_group_attributes Sample.failing_encoder
           (Sample.world_patched "w" Sample.grp_with_paths) 0 "w"
           Sample.grp_with_paths
           (Attribute.mk "file_path" (AStr "attr.nc"))
           (Attribute.mk "file_mode" (AStr "w")) (POrderedDict []));
    vm_compute; reflexivity.
Defined.

(** ** Comparing mimics *)

Lemma op_eq_run `{Externals} (w : world) (a b : objid) (ca cb : cls)
    (va vb : pyval) :
  type_of w a = Some ca ->
  type_of w b = Some cb ->
  dict_get w a "ncobj" = Some va ->
  dict_get w b "ncobj" = Some vb ->
  Nc4ComponentMimic.op_eq a b w
  = (if proper_subclass cb ca then ncobj_eq vb va else ncobj_eq va vb, w).
Proof.
  intros Ha Hb Hva Hvb. unfold Nc4ComponentMimic.op_eq. rewrite Ha, Hb.
  unfold Nc4ComponentMimic.__eq__, bind.
  destruct (proper_subclass cb ca).
  - now rewrite (self_ncobj_ok _ _ _ Hvb), (self_ncobj_ok _ _ _ Hva).
  - now rewrite (self_ncobj_ok _ _ _ Hva), (self_ncobj_ok _ _ _ Hvb).
Qed.

(** X9: when the comparison of wrapped components is symmetric, so is the
    comparison of mimics: [a == b] and [b == a] give the same answer, and
    so do [a != b] and [b != a], for mimics of any two classes. *)
Theorem mimic_comparison_symmetric `{Externals} (w : world) (a b : objid)
    (ca cb : cls) (va vb : pyval) :
  type_of w a = Some ca ->
  type_of w b = Some cb ->
  dict_get w a "ncobj" = Some va ->
  dict_get w b "ncobj" = Some vb ->
  (forall x y, ncobj_eq x y = ncobj_eq y x) ->
  Nc4ComponentMimic.op_eq a b w = Nc4ComponentMimic.op_eq b a w
  /\ Nc4ComponentMimic.op_ne a b w = Nc4ComponentMimic.op_ne b a w.
Proof.
  intros Ha Hb Hva Hvb Hsym.
  assert (Heq : Nc4ComponentMimic.op_eq a b w = (ncobj_eq va vb, w)).
  { rewrite (op_eq_run w a b ca cb va vb) by assumption.
    destruct (proper_subclass cb ca); [now rewrite Hsym | done]. }
  assert (Heq' : Nc4ComponentMimic.op_eq b a w = (ncobj_eq va vb, w)).
  { rewrite (op_eq_run w b a cb ca vb va) by assumption.
    destruct (proper_subclass ca cb); [done | now rewrite Hsym]. }
  split; [now rewrite Heq, Heq'|].
  unfold Nc4ComponentMimic.op_ne, Nc4ComponentMimic.__ne__, bind.
  rewrite Ha, Hb, Heq, Heq'.
  now destruct (proper_subclass cb ca), (proper_subclass ca cb).
Qed.

Lemma mimic_comparison_symmetric_witness :
  @Nc4ComponentMimic.op_eq Sample.friendly 3 4 Sample.world_group
  = @Nc4ComponentMimic.op_eq Sample.friendly 4 3 Sample.world_group.
Proof.
  refine (proj1 (@mimic_comparison_symmetric Sample.friendly
                   Sample.world_group 3 4 CVariableMimic CVariableMimic
                   (PVar Sample.var_temp) (PVar Sample.var_height)
                   _ _ _ _ _)); try (vm_compute; reflexivity).
  intros x y. cbn. f_equal. apply bool_decide_ext. split; congruence.
Defined.

(** ** The group mimic at every level *)

Lemma Forall2_Forall_impl {A B} (P : A -> Prop) (R R' : A -> B -> Prop)
    (l : list A) (k : list B) :
  Forall P l -> Forall2 R l k ->
  (forall a b, P a -> R a b -> R' a b) ->
  Forall2 R' l k.
Proof.
  intros HP HR Himp. induction HR as [|a b l k Hab _ IH]; [constructor|].
  inversion HP; subst. constructor; auto.
Qed.

Lemma sum_list_ones {A} (l : list A) :
  sum_list (map (fun _ => 1) l) = length l.
Proof. induction l as [|a l IH]; cbn; [done | now rewrite IH]. Qed.

Lemma frame_except_type_of (self : objid) (w w' : world) (o : objid) :
  frame_except self w w' -> o < length (heap w) -> o ≠ self ->
  type_of w' o = type_of w o.
Proof. intros (_ & Ho & _) Hlt Hne. unfold type_of. now rewrite Ho. Qed.

Lemma type_of_lt (w : world) (o : objid) (k : cls) :
  type_of w o = Some k -> o < length (heap w).
Proof.
  unfold type_of. destruct (heap w !! o) eqn:Hh; [|discriminate].
  intros _. now apply lookup_lt_Some in Hh.
Qed.

Lemma leaf_builds {A} (k : cls) (parent : pyval) (wrap : A -> pyval)
    (a : A) :
  builds (fun w a c => type_of w c = Some k
                       /\ child_of w parent (wrap a) c)
         (fun _ => 1)
         (fun a => Nc4ComponentMimic.new k [wrap a] [("parent_grp", parent)])
         a.
Proof.
  intros w. unfold Nc4ComponentMimic.new, bind.
  destruct (alloc_frame k w) as (Hf & Hlen & Hnew).
  change (alloc k w) with (Ok (length (heap w)), snd (alloc k w)).
  cbn iota beta. rewrite Nc4ComponentMimic_init_run. cbn iota beta.
  eexists. split; [reflexivity|].
  destruct (Nc4ComponentMimic_init_fields (length (heap w)) (wrap a) parent
              (snd (alloc k w))) as (Hfe & Hl & Ht & Hc); [lia|].
  split; [|split; [lia|split; [lia|split; [|exact Hc]]]].
  - destruct Hf as (Hf1 & Hf2 & Hf3 & Hf4).
    destruct Hfe as (He1 & He2 & He3 & He4).
    split; [lia|]. split; [|split; congruence].
    intros o Ho. rewrite He2 by lia. now apply Hf2.
  - rewrite Ht. unfold type_of. now rewrite Hnew.
Qed.

Lemma comprehension_post {A} `{Named A}
    (Q : world -> A -> objid -> Prop) (cnt : A -> nat)
    (ctor : A -> M objid) (l : list A) :
  Forall (builds Q cnt ctor) l ->
  (forall a c w w', frame w w' -> c < length (heap w) -> Q w a c ->
                    Q w' a c) ->
  forall w, exists items w',
    comprehension (fun a => let* m := ctor a in ret (name_of a, PRef m)) l w
    = (Ok items, w')
    /\ frame w w'
    /\ length (heap w') = length (heap w) + sum_list (map cnt l)
    /\ Forall2 (fun a kv =>
                  kv.1 = name_of a
                  /\ exists c, kv.2 = PRef c
                               /\ length (heap w) <= c < length (heap w')
                               /\ Q w' a c)
               l items.
Proof.
  intros Hall Hstable. induction Hall as [|a l Ha _ IH]; intros w.
  - exists [], w. split; [done|]. split; [apply frame_refl|].
    split; [cbn; lia | constructor].
  - destruct (Ha w) as (w1 & Hrun & Hf1 & Hlen1 & Hpos & HQ).
    destruct (IH w1) as (items & w' & Hrest & Hf2 & Hlen2 & Hch).
    exists ((name_of a, PRef (length (heap w))) :: items), w'.
    split; [|split; [|split]].
    + cbn [comprehension]. unfold bind at 1. unfold bind at 1.
      rewrite Hrun. cbn iota beta. unfold ret at 1. unfold bind at 1.
      fold (comprehension
              (fun a => let* m := ctor a in ret (name_of a, PRef m))).
      now rewrite Hrest.
    + eapply frame_trans; eassumption.
    + rewrite Hlen2, Hlen1. cbn. lia.
    + constructor.
      * split; [done|]. exists (length (heap w)). split; [done|].
        split; [lia|]. apply (Hstable a _ w1 w'); [done|lia|done].
      * eapply Forall2_impl; [exact Hch|].
        intros b kv (Hk & c & Hv & Hr & Hq). split; [done|].
        exists c. split; [done|]. split; [lia|done].
Qed.

(** Being built at every level is a matter of the objects from [c] on. *)
Lemma deep_built_agree (g : Group.t) :
  forall (w w' : world) (c : objid) (p : pyval),
    (forall o, c <= o -> o < length (heap w) ->
               heap w' !! o = heap w !! o) ->
    deep_built w c g p -> deep_built w' c g p.
Proof.
  induction g as [name dimensions variables groups attributes IH]
    using Group_ind_nested.
  intros w w' c p Hagree Hdeep.
  assert (Hd : forall o n v, c <= o -> dict_get w o n = Some v ->
                             dict_get w' o n = Some v).
  { intros o n v Hle Hv. pose proof (dict_get_lt _ _ _ _ Hv) as Hlt.
    unfold dict_get in *. now rewrite Hagree. }
  assert (Ht : forall o k, c <= o -> type_of w o = Some k ->
                           type_of w' o = Some k).
  { intros o k Hle Hk. pose proof (type_of_lt _ _ _ Hk) as Hlt.
    unfold type_of in *. now rewrite Hagree. }
  remember (Group.mk name dimensions variables groups attributes) as g
    eqn:Eg.
  destruct Hdeep as [c g p dims vars grps T C D V G Ld Lv Lg].
  subst g; cbn [Group.dimensions Group.variables Group.groups] in *.
  apply (deep_built_intro w' c _ p dims vars grps); auto.
  - destruct C as [C1 C2]. split; auto.
  - eapply Forall2_impl; [exact Ld|].
    intros d kv (Hk & c' & Hv & Hlt & Hty & Hp & Hn). split; [done|].
    exists c'. split; [done|]. split; [done|].
    split; [apply Ht; [lia|done]|]. split; apply Hd; auto; lia.
  - eapply Forall2_impl; [exact Lv|].
    intros v kv (Hk & c' & Hv & Hlt & Hty & Hp & Hn). split; [done|].
    exists c'. split; [done|]. split; [done|].
    split; [apply Ht; [lia|done]|]. split; apply Hd; auto; lia.
  - eapply Forall2_Forall_impl; [exact IH | exact Lg |].
    intros sub kv IHsub (Hk & c' & Hv & Hlt & Hsub). split; [done|].
    exists c'. split; [done|]. split; [done|].
    apply (IHsub w w'); [|done].
    intros o Ho Hol. apply Hagree; lia.
Qed.

Lemma leaf_of_stable (self : objid) (k : cls) {A} (wrap : A -> pyval) :
  forall (a : A) (c : objid) (w w' : world),
    frame w w' -> c < length (heap w) ->
    type_of w c = Some k /\ child_of w (PRef self) (wrap a) c ->
    type_of w' c = Some k /\ child_of w' (PRef self) (wrap a) c.
Proof.
  intros a c w w' Hf Hlt (Ht & Hp & Hn). split; [|split].
  - now rewrite (frame_type_of w w').
  - now rewrite (frame_dict_get w w').
  - now rewrite (frame_dict_get w w').
Qed.

Lemma deep_built_stable (self : objid) :
  forall (sub : Group.t) (c : objid) (w w' : world),
    frame w w' -> c < length (heap w) ->
    deep_built w c sub (PRef self) -> deep_built w' c sub (PRef self).
Proof.
  intros sub c w w' (_ & Ho & _) _. apply deep_built_agree.
  intros o _ Hlt. now apply Ho.
Qed.

(** The call returns for every group, adds one object per node of the
    group after the existing objects, changes none of those, and leaves a
    group mimic built at every level. *)
Lemma GroupMimic_new_deep (g : Group.t) :
  forall parent : pyval,
    builds (fun w g c => deep_built w c g parent) node_count
           (fun g => GroupMimic.new g parent) g.
Proof.
  induction g as [name dimensions variables groups attributes IH]
    using Group_ind_nested.
  intros parent w.
  set (g := Group.mk name dimensions variables groups attributes).
  set (self := length (heap w)).
  destruct (alloc_frame CGroupMimic w) as (Hf01 & Hl1 & Hnew).
  set (w1 := snd (alloc CGroupMimic w)) in *.
  assert (Hs1 : self < length (heap w1)) by (subst self; lia).
  destruct (Nc4ComponentMimic_init_fields self (PGrp g) parent w1 Hs1)
    as (Hf12 & Hl2 & Ht2 & Hc2).
  set (w2 := snd (setattr self "_parent_group_ncobj" parent
                    (snd (setattr self "ncobj" (PGrp g) w1)))) in *.
  (* the dimensions *)
  destruct (comprehension_post
              (fun w (d : Dimension.t) c =>
                 type_of w c = Some CDimensionMimic
                 /\ child_of w (PRef self) (PDim d) c)
              (fun _ => 1)
              (fun dim => DimensionMimic.new [PDim dim]
                            [("parent_grp", PRef self)])
              dimensions
              ltac:(apply Forall_forall; intros d _;
                    apply (leaf_builds CDimensionMimic (PRef self) PDim))
              (leaf_of_stable self CDimensionMimic PDim) w2)
    as (dims & w3 & Hrun3 & Hf23 & Hn3 & Hch3).
  set (w4 := snd (setattr self "dimensions"
                    (POrderedDict (OrderedDict.of_items dims)) w3)).
  (* the variables *)
  destruct (comprehension_post
              (fun w (v : NcVariable.t) c =>
                 type_of w c = Some CVariableMimic
                 /\ child_of w (PRef self) (PVar v) c)
              (fun _ => 1)
              (fun var => VariableMimic.new [PVar var]
                            [("parent_grp", PRef self)])
              variables
              ltac:(apply Forall_forall; intros v _;
                    apply (leaf_builds CVariableMimic (PRef self) PVar))
              (leaf_of_stable self CVariableMimic PVar) w4)
    as (vars & w5 & Hrun5 & Hf45 & Hn5 & Hch5).
  set (w6 := snd (setattr self "variables"
                    (POrderedDict (OrderedDict.of_items vars)) w5)).
  (* the subgroups *)
  destruct (comprehension_post
              (fun w (sub : Group.t) c => deep_built w c sub (PRef self))
              node_count
              (fun grp => GroupMimic.new grp (PRef self)) groups
              ltac:(eapply Forall_impl; [exact IH|];
                    intros grp Hgrp; exact (Hgrp (PRef self)))
              (deep_built_stable self) w6)
    as (grps & w7 & Hrun7 & Hf67 & Hn7 & Hch7).
  set (w8 := snd (setattr self "groups"
                    (POrderedDict (OrderedDict.of_items grps)) w7)).
  assert (Hl4 : length (heap w4) = length (heap w3))
    by apply setattr_length.
  assert (Hl6 : length (heap w6) = length (heap w5))
    by apply setattr_length.
  assert (Hl8 : length (heap w8) = length (heap w7))
    by apply setattr_length.
  assert (F34 : frame_except self w3 w4) by apply setattr_frame_except.
  assert (F45 : frame_except self w4 w5) by now apply frame_frame_except.
  assert (F56 : frame_except self w5 w6) by apply setattr_frame_except.
  assert (F67 : frame_except self w6 w7) by now apply frame_frame_except.
  assert (F78 : frame_except self w7 w8) by apply setattr_frame_except.
  assert (F58 : frame_except self w5 w8)
    by (eapply frame_except_trans; [exact F56|];
        eapply frame_except_trans; eassumption).
  assert (F38 : frame_except self w3 w8)
    by (eapply frame_except_trans; [exact F34|];
        eapply frame_except_trans; eassumption).
  assert (F18 : frame_except self w1 w8).
  { eapply frame_except_trans; [exact Hf12|].
    eapply frame_except_trans; [apply frame_frame_except, Hf23|exact F38]. }
  rewrite sum_list_ones in Hn3. rewrite sum_list_ones in Hn5.
  exists w8. split; [|split; [|split; [|split]]].
  - unfold GroupMimic.new, bind at 1.
    change (alloc CGroupMimic w) with (Ok self, w1). cbv beta iota.
    unfold bind at 1. rewrite GroupMimic_init_unfold.
    unfold bind at 1. rewrite Nc4ComponentMimic_init_run. fold w2.
    cbv beta iota. unfold bind at 1. fold g. cbn [Group.dimensions g].
    rewrite Hrun3. cbv beta iota. unfold bind at 1. rewrite setattr_run.
    fold w4. cbv beta iota. unfold bind at 1. cbn [Group.variables g].
    rewrite Hrun5. cbv beta iota. unfold bind at 1. rewrite setattr_run.
    fold w6. cbv beta iota. unfold bind at 1. cbn [Group.groups g].
    rewrite Hrun7. cbv beta iota. rewrite setattr_run. fold w8.
    reflexivity.
  - destruct Hf01 as (A1 & A2 & A3 & A4). destruct F18 as (B1 & B2 & B3 & B4).
    split; [lia|]. split; [|split; congruence].
    intros o Ho. rewrite B2 by (subst self; lia). now apply A2.
  - change (node_count g)
      with (S (length dimensions + length variables
               + sum_list (map node_count groups))).
    subst self. lia.
  - change (node_count g)
      with (S (length dimensions + length variables
               + sum_list (map node_count groups))).
    lia.
  - assert (Hself : forall n v,
               n ≠ "dimensions" -> n ≠ "variables" -> n ≠ "groups" ->
               dict_get w2 self n = Some v ->
               dict_get w8 self n = Some v).
    { intros n v N1 N2 N3 Hv. unfold w8.
      rewrite setattr_dict_get_ne by (right; congruence).
      rewrite (frame_dict_get w6 w7) by (auto; lia). unfold w6.
      rewrite setattr_dict_get_ne by (right; congruence).
      rewrite (frame_dict_get w4 w5) by (auto; lia). unfold w4.
      rewrite setattr_dict_get_ne by (right; congruence).
      rewrite (frame_dict_get w2 w3) by (auto; destruct Hf23; lia).
      exact Hv. }
    assert (Hl3 : length (heap w2) <= length (heap w3)) by lia.
    apply (deep_built_intro w8 self g parent dims vars grps).
    + unfold w8. rewrite setattr_type_of.
      rewrite (frame_type_of w6 w7) by (auto; lia). unfold w6.
      rewrite setattr_type_of.
      rewrite (frame_type_of w4 w5) by (auto; lia). unfold w4.
      rewrite setattr_type_of.
      rewrite (frame_type_of w2 w3) by (auto; lia).
      rewrite Ht2. unfold type_of, self. now rewrite Hnew.
    + destruct Hc2 as [Hp Hn]. split; apply Hself; done.
    + unfold w8. rewrite setattr_dict_get_ne by (right; discriminate).
      rewrite (frame_dict_get w6 w7) by (auto; lia). unfold w6.
      rewrite setattr_dict_get_ne by (right; discriminate).
      rewrite (frame_dict_get w4 w5) by (auto; lia).
      apply setattr_dict_get_eq. lia.
    + unfold w8. rewrite setattr_dict_get_ne by (right; discriminate).
      rewrite (frame_dict_get w6 w7) by (auto; lia).
      apply setattr_dict_get_eq. lia.
    + apply setattr_dict_get_eq. lia.
    + eapply Forall2_impl; [exact Hch3|].
      intros d kv (Hk & c & Hv & Hr & Hty & Hc). split; [done|].
      exists c. split; [done|]. split; [lia|]. split.
      * rewrite (frame_except_type_of self w3 w8); [done|done|lia|lia].
      * eapply (child_of_frame_except self w3 w8); [done|lia|lia|done].
    + eapply Forall2_impl; [exact Hch5|].
      intros v kv (Hk & c & Hv & Hr & Hty & Hc). split; [done|].
      exists c. split; [done|]. split; [lia|]. split.
      * rewrite (frame_except_type_of self w5 w8); [done|done|lia|lia].
      * eapply (child_of_frame_except self w5 w8); [done|lia|lia|done].
    + eapply Forall2_impl; [exact Hch7|].
      intros sub kv (Hk & c & Hv & Hr & Hdeep). split; [done|].
      exists c. split; [done|]. split; [lia|].
      apply (deep_built_agree sub w7 w8); [|done].
      intros o Ho Hlt. destruct F78 as (_ & Hsame & _).
      apply Hsame; lia.
Qed.

(** X10: [GroupMimic(g, parent_grp=parent)] returns for every group, and
    the returned mimic is built at every level: it and every subgroup
    mimic below it, at any depth, has the three mappings made from its own
    wrapped group, with leaf mimics for the dimensions and variables and a
    group mimic for each subgroup, each created after its parent and having
    it as [group()]. *)
Theorem GroupMimic_builds_every_level (g : Group.t) (parent : pyval)
    (w : world) :
  fst (GroupMimic.new g parent w) = Ok (length (heap w))
  /\ deep_built (snd (GroupMimic.new g parent w)) (length (heap w)) g parent.
Proof.
  destruct (GroupMimic_new_deep g parent w) as (w' & Hrun & _ & _ & _ & Hd).
  rewrite Hrun. now split.
Qed.

(** X11: the call creates exactly one object for every node of the wrapped
    group: the group, each dimension, each variable, and so on through the
    subgroups. *)
Theorem GroupMimic_object_count (g : Group.t) (parent : pyval) (w : world) :
  length (heap (snd (GroupMimic.new g parent w)))
  = length (heap w) + node_count g.
Proof.
  destruct (GroupMimic_new_deep g parent w) as (w' & Hrun & _ & Hlen & _).
  now rewrite Hrun.
Qed.

(** X12: building a group mimic is confined to the new objects: every
    object that existed keeps its class and its fields, the global names of
    the module are as before, and the file layer is not touched. *)
Theorem GroupMimic_new_frame (g : Group.t) (parent : pyval) (w : world) :
  let w' := snd (GroupMimic.new g parent w) in
  (forall o, o < length (heap w) -> heap w' !! o = heap w !! o)
  /\ globals w' = globals w
  /\ trace w' = trace w.
Proof.
  destruct (GroupMimic_new_deep g parent w)
    as (w' & Hrun & (_ & Ho & Hg & Ht) & _).
  cbn zeta. rewrite Hrun. now split.
Qed.

(** X14: a dimension mimic has size 0 exactly when it says it is
    unlimited; a dimension that is not unlimited has its declared length as
    size, and that length is not 0. *)
Theorem DimensionMimic_size_zero_iff_unlimited (w : world) (self : objid)
    (d : Dimension.t) :
  dict_get w self "ncobj" = Some (PDim d) ->
  (DimensionMimic.size self w = (Ok (PInt 0), w)
   <-> DimensionMimic.isunlimited self w = (Ok true, w))
  /\ (DimensionMimic.isunlimited self w = (Ok false, w) ->
      Dimension.length d ≠ 0%Z
      /\ DimensionMimic.size self w
         = (Ok (PInt (Dimension.length d)), w)).
Proof.
  intros Hn.
  rewrite (DimensionMimic_size_run _ _ _ Hn),
    (DimensionMimic_isunlimited_run _ _ _ Hn).
  destruct (Dimension.unlimited d); cbn [orb].
  - split; [tauto|]. intros [=].
  - case_bool_decide as E.
    + split; [tauto|]. intros [=].
    + split.
      * split; [|intros [=]]. intros [= H0]. congruence.
      * intros _. now split.
Qed.

Lemma DimensionMimic_size_zero_iff_unlimited_witness :
  Dimension.length Sample.dim_x ≠ 0%Z
  /\ DimensionMimic.size 1 Sample.world_group
     = (Ok (PInt (Dimension.length Sample.dim_x)), Sample.world_group).
Proof.
  assert (Hn : dict_get Sample.world_group 1 "ncobj"
               = Some (PDim Sample.dim_x)) by (vm_compute; reflexivity).
  apply (proj2 (DimensionMimic_size_zero_iff_unlimited _ _ _ Hn)).
  vm_compute. reflexivity.
Defined.

(** X15: on a group mimic the reads [dimensions], [variables] and [groups]
    give the mappings set by the initialiser, keyed by the names of the
    wrapped collections, also when the wrapped group has attributes of
    these names; such attributes stay reachable through [getncattr]. *)
Theorem GroupMimic_mappings_before_attributes (g : Group.t) (parent : pyval)
    (w : world) :
  exists self w' dims vars grps,
    GroupMimic.new g parent w = (Ok self, w')
    /\ py_getattr self "dimensions" w' = (Ok (POrderedDict dims), w')
    /\ py_getattr self "variables" w' = (Ok (POrderedDict vars), w')
    /\ py_getattr self "groups" w' = (Ok (POrderedDict grps), w')
    /\ (forall k, k ∈ OrderedDict.keys dims
                  <-> k ∈ Container.names (Group.dimensions g))
    /\ (forall k, k ∈ OrderedDict.keys vars
                  <-> k ∈ Container.names (Group.variables g))
    /\ (forall k, k ∈ OrderedDict.keys grps
                  <-> k ∈ Container.names (Group.groups g))
    /\ forall n a,
         Container.getitem (Group.attributes g) n = Some a ->
         Nc4ComponentAttrsMimic.getncattr self n w'
         = (Ok (PAtom (Attribute.value a)), w').
Proof.
  destruct (GroupMimic_new_spec g parent w)
    as (w' & Hrun & _ & _ & Ht & (_ & Hn) & dims & vars & grps
        & Hd & Hv & Hg & Cd & Cv & Cg).
  exists (length (heap w)), w', (OrderedDict.of_items dims),
    (OrderedDict.of_items vars), (OrderedDict.of_items grps).
  split; [done|].
  split; [apply (py_getattr_dict _ _ CGroupMimic); [done| |done];
          apply (proj1 (bool_decide_eq_false _)); vm_compute; reflexivity|].
  split; [apply (py_getattr_dict _ _ CGroupMimic); [done| |done];
          apply (proj1 (bool_decide_eq_false _)); vm_compute; reflexivity|].
  split; [apply (py_getattr_dict _ _ CGroupMimic); [done| |done];
          apply (proj1 (bool_decide_eq_false _)); vm_compute; reflexivity|].
  split; [intros k; rewrite of_items_key_set;
          now rewrite (children_of_names _ _ _ _ _ Cd)|].
  split; [intros k; rewrite of_items_key_set;
          now rewrite (children_of_names _ _ _ _ _ Cv)|].
  split; [intros k; rewrite of_items_key_set;
          now rewrite (children_of_names _ _ _ _ _ Cg)|].
  intros n a Ha.
  now apply (getncattr_found w' _ (PGrp g) (Group.attributes g)).
Qed.

(** The sample of a group with an attribute called like a mapping. *)
Example GroupMimic_attribute_named_dimensions :
  let g := Group.mk "g" [Sample.dim_x] [] []
             [Attribute.mk "dimensions" (AStr "two")] in
  let out := GroupMimic.new g PNone initial_world in
  fst (py_getattr 0 "dimensions" (snd out))
  = Ok (POrderedDict [("x", PRef 1)])
  /\ fst (Nc4ComponentAttrsMimic.getncattr 0 "dimensions" (snd out))
     = Ok (PStr "two").
Proof. vm_compute. auto. Qed.

(** The sample group has eight nodes and becomes eight objects. *)
Example GroupMimic_sample_count :
  node_count Sample.grp_root = 8
  /\ length (heap Sample.world_group) = 8.
Proof. vm_compute. auto. Qed.
